(** * Group balances of the finance-manager backend

    A shallow embedding of [internal/group/group.go] and
    [internal/helpers/db_helpers.go]: the four handlers [CreateGroup],
    [AddMember], [GetBalances] and [GetGroup], the decimal arithmetic they
    use, and the database they talk to. *)

From Stdlib Require Import ZArith QArith Qpower Qcanon Lia.
From stdpp Require Import gmap strings list fin_maps.
From Stdlib Require Import Ascii.

Local Open Scope Z_scope.

(** ** Decimals

    [decimal.Decimal] of shopspring/decimal: a coefficient and a base-ten
    exponent, denoting [value * 10 ^ exp].  [Add] and [Sub] first bring both
    operands to the smaller exponent, which multiplies a coefficient by a power
    of ten and so loses nothing. *)

Module decimal.

Record Decimal := New { value : Z; exp : Z }.

(** [var Zero = New(0, 1)] *)
Definition Zero : Decimal := New 0 1.

(** [rescale], for a target exponent not above the current one (the only way
    [RescalePair] calls it). *)
Definition rescale (d : Decimal) (e : Z) : Decimal :=
  if exp d =? e then d
  else if e <? exp d then New (value d * 10 ^ (exp d - e)) e
  else New (value d ÷ 10 ^ (e - exp d)) e.

Definition RescalePair (d1 d2 : Decimal) : Decimal * Decimal :=
  if exp d1 =? exp d2 then (d1, d2)
  else
    let baseScale := Z.min (exp d1) (exp d2) in
    if negb (baseScale =? exp d1) then (rescale d1 baseScale, d2)
    else (d1, rescale d2 baseScale).

Definition Add (d d2 : Decimal) : Decimal :=
  let '(rd, rd2) := RescalePair d d2 in
  New (value rd + value rd2) (exp rd).

Definition Sub (d d2 : Decimal) : Decimal :=
  let '(rd, rd2) := RescalePair d d2 in
  New (value rd - value rd2) (exp rd).

Definition Neg (d : Decimal) : Decimal := New (- value d) (exp d).

(** [Cmp] compares the rescaled coefficients; [Equal] is [Cmp == 0]. *)
Definition Cmp (d d2 : Decimal) : comparison :=
  let '(rd, rd2) := RescalePair d d2 in
  value rd ?= value rd2.

Definition Equal (d d2 : Decimal) : bool :=
  match Cmp d d2 with Eq => true | _ => false end.

Definition IsZero (d : Decimal) : bool := value d =? 0.

(** The rational number a decimal stands for. *)
Definition toQ (d : Decimal) : Q := (inject_Z (value d) * (10 # 1) ^ exp d)%Q.

Definition den (d : Decimal) : Qc := Q2Qc (toQ d).

End decimal.

Import decimal.

(** ** Rows and tables

    Identifiers are 128-bit UUIDs, kept as numbers; [time.Time] is a number of
    seconds.  A table is the list of its rows. *)

Abbreviation UUID := N (only parsing).

Module uuid.
Definition Nil : UUID := 0%N.
End uuid.

Record User := mkUser { u_id : UUID; u_email : string; u_username : string }.

Record Group := mkGroup {
  ID : UUID; Name : string; CreatedBy : UUID; CreatedAt : Z }.

Record Member := mkMember { gm_group_id : UUID; gm_user_id : UUID }.

Record Expense := mkExpense {
  e_id : UUID; e_group_id : UUID; e_description : string;
  e_total_amount : Decimal; e_paid_by : UUID; e_created_at : Z }.

Record ExpenseSplit := mkSplit {
  es_expense_id : UUID; es_user_id : UUID; es_amount : Decimal }.

Record Settlement := mkSettlement {
  s_group_id : UUID; s_from_user : UUID; s_to_user : UUID; s_amount : Decimal }.

Record DB := mkDB {
  users : list User;
  groups : list Group;
  group_members : list Member;
  expenses : list Expense;
  expense_splits : list ExpenseSplit;
  settlements : list Settlement }.

(** ** The connection

    Every database call of the handlers has a site.  The connection decides
    which calls fail and with what error, which row of a result set fails to
    scan, and which identifier and timestamp the database generates for a new
    group.  These are the failures the handlers look at; a result set that
    opens is taken to arrive in full. *)

Inductive error := ErrNoRows | ErrUniqueViolation | ErrConn.

Inductive Site :=
| SBegin | SInsertGroup | SInsertCreator | SCommit
| SCheckRequester | SGetUserByEmail | SIsGroupMember | SInsertMember
| SMembers | SExpenses | SSplits | SSettlements
| SGroup | SGroupMembers | SGroupExpenses.

Record Conn := mkConn {
  fails : Site -> option error;
  bad_row : Site -> option nat;
  gen_id : UUID;
  now : Z }.

(** [QueryRow(...).Scan(...)]: the first row, [ErrNoRows] when there is none. *)
Definition QueryRow {A} (cx : Conn) (s : Site) (rows : list A) : error + A :=
  match fails cx s with
  | Some e => inl e
  | None => match rows with [] => inl ErrNoRows | r :: _ => inr r end
  end.

(** [Query(...)]: the result set, or the error of the call. *)
Definition Query {A} (cx : Conn) (s : Site) (rows : list A) : error + list A :=
  match fails cx s with
  | Some e => inl e
  | None => inr rows
  end.

(** [for rows.Next() { if err := rows.Scan(...); err != nil { return } ... }]:
    the loop body runs on each row in turn; [None] when a scan fails. *)
Fixpoint scanFrom {A St} (bad : option nat) (i : nat) (body : St -> A -> St)
    (rows : list A) (s : St) : option St :=
  match rows with
  | [] => Some s
  | r :: rest =>
      if decide (bad = Some i) then None
      else scanFrom bad (S i) body rest (body s r)
  end.

Definition scanRows {A St} (cx : Conn) (site : Site) (body : St -> A -> St)
    (rows : list A) (s : St) : option St :=
  scanFrom (bad_row cx site) 0 body rows s.

(** ** The SQL of the handlers, over the tables *)

(** [SELECT EXISTS(SELECT 1 FROM group_members WHERE group_id = $1 AND user_id = $2)] *)
Definition sql_exists_member (db : DB) (groupID userID : UUID) : bool :=
  existsb (fun m => (gm_group_id m =? groupID)%N && (gm_user_id m =? userID)%N)
          (group_members db).

(** [SELECT id FROM users WHERE email = $1] *)
Definition sql_user_by_email (db : DB) (email : string) : list UUID :=
  map u_id (List.filter (fun u => String.eqb (u_email u) email) (users db)).

(** [SELECT user_id FROM group_members WHERE group_id = $1] *)
Definition sql_members (db : DB) (groupID : UUID) : list UUID :=
  map gm_user_id
      (List.filter (fun m => (gm_group_id m =? groupID)%N) (group_members db)).

(** [SELECT paid_by, total_amount FROM expenses WHERE group_id = $1] *)
Definition sql_expenses (db : DB) (groupID : UUID) : list (UUID * Decimal) :=
  map (fun e => (e_paid_by e, e_total_amount e))
      (List.filter (fun e => (e_group_id e =? groupID)%N) (expenses db)).

(** [SELECT es.user_id, es.amount FROM expense_splits es
     JOIN expenses e ON es.expense_id = e.id WHERE e.group_id = $1] *)
Definition sql_splits (db : DB) (groupID : UUID) : list (UUID * Decimal) :=
  flat_map
    (fun es =>
       map (fun _ => (es_user_id es, es_amount es))
           (List.filter
              (fun e => (es_expense_id es =? e_id e)%N && (e_group_id e =? groupID)%N)
              (expenses db)))
    (expense_splits db).

(** [SELECT from_user, to_user, amount FROM settlements WHERE group_id = $1] *)
Definition sql_settlements (db : DB) (groupID : UUID)
    : list (UUID * UUID * Decimal) :=
  map (fun s => (s_from_user s, s_to_user s, s_amount s))
      (List.filter (fun s => (s_group_id s =? groupID)%N) (settlements db)).

(** [SELECT id, name, created_by, created_at FROM groups WHERE id = $1] *)
Definition sql_group (db : DB) (groupID : UUID) : list Group :=
  List.filter (fun g => (ID g =? groupID)%N) (groups db).

(** [INSERT INTO group_members (group_id, user_id) VALUES ($1, $2)]; the pair
    is unique in the table. *)
Definition insert_member (db : DB) (groupID userID : UUID) : error + DB :=
  if sql_exists_member db groupID userID then inl ErrUniqueViolation
  else inr (mkDB (users db) (groups db)
                 (group_members db ++ [mkMember groupID userID])
                 (expenses db) (expense_splits db) (settlements db)).

(** [INSERT INTO groups (name, created_by) VALUES ($1, $2) RETURNING ...] *)
Definition insert_group (cx : Conn) (db : DB) (name : string) (creator : UUID)
    : Group * DB :=
  let g := mkGroup (gen_id cx) name creator (now cx) in
  (g, mkDB (users db) (groups db ++ [g]) (group_members db)
           (expenses db) (expense_splits db) (settlements db)).

(** [Exec] of an insert: the call may fail on its own, or the table refuses
    the row. *)
Definition Exec (cx : Conn) (s : Site) (r : error + DB) : error + DB :=
  match fails cx s with
  | Some e => inl e
  | None => r
  end.

(** [QueryRow(...).Scan(&b)] of a [SELECT EXISTS(...)]: the flag keeps its zero
    value when the call fails. *)
Definition ScanBool (cx : Conn) (s : Site) (b : bool) : bool * option error :=
  match QueryRow cx s [b] with
  | inl e => (false, Some e)
  | inr b => (b, None)
  end.

(** Transactions: [Begin] opens a private view of the database, the inserts
    made through it stay in that view, [Commit] makes the view the database
    and [Rollback] drops it. *)
Definition Begin (cx : Conn) (db : DB) : error + DB :=
  match fails cx SBegin with
  | Some e => inl e
  | None => inr db
  end.

Definition Commit (cx : Conn) (db tx : DB) : error + DB :=
  match fails cx SCommit with
  | Some e => inl e
  | None => inr tx
  end.

Definition Rollback (db tx : DB) : DB := db.

(** ** internal/helpers/db_helpers.go *)

Module helpers.

Definition IsGroupMember (cx : Conn) (db : DB) (groupID userID : UUID)
    : bool * option error :=
  ScanBool cx SIsGroupMember (sql_exists_member db groupID userID).

Definition GetUserByEmail (cx : Conn) (db : DB) (email : string)
    : UUID * bool * option error :=
  match QueryRow cx SGetUserByEmail (sql_user_by_email db email) with
  | inl _ => (uuid.Nil, false, None)
  | inr userID => (userID, true, None)
  end.

End helpers.

(** ** Requests and responses *)

(** What the handlers read from the request: the authenticated principal
    ([middleware.GetUserID]), the parsed [:id] parameter ([None] when
    [uuid.Parse] fails) and the string field of the JSON body ([None] when
    [ShouldBindJSON] fails). *)
Record Request := mkRequest {
  principal : option UUID;
  param_id : option UUID;
  json_body : option string }.

Record Balance := mkBalance { UserID : UUID; Amount : Decimal }.

Record GroupMember := mkGroupMember {
  MemberUserID : UUID; Email : string; Username : string }.

Record GroupExpense := mkGroupExpense {
  ExpenseID : UUID; Description : string; TotalAmount : Decimal;
  PaidBy : UUID; ExpenseCreatedAt : Z }.

Record GroupDetails := mkGroupDetails {
  DetailsID : UUID; DetailsName : string; DetailsCreatedBy : UUID;
  DetailsCreatedAt : Z;
  Members : list GroupMember; Expenses : list GroupExpense }.

Inductive Body :=
| Error (msg : string)
| BindError
| ValidationError
| Message (msg : string)
| GroupJSON (g : Group)
| BalancesJSON (balances : list Balance)
| DetailsJSON (group : GroupDetails) (is_member : bool).

Record Response := JSON { status : Z; body : Body }.

(** ** internal/group/group.go *)

(** [validate:"required,min=1"] on a string. *)
Definition validName (name : string) : bool := negb (String.eqb name "").

Definition CreateGroup (cx : Conn) (db : DB) (rq : Request) : Response * DB :=
  match principal rq with
  | None => (JSON 401 (Error "unauthorized"), db)
  | Some userID =>
  match json_body rq with
  | None => (JSON 400 BindError, db)
  | Some name =>
  if negb (validName name) then (JSON 400 ValidationError, db) else
  match Begin cx db with
  | inl _ => (JSON 500 (Error "failed to start transaction"), db)
  | inr tx =>
  (* defer tx.Rollback: every return before Commit drops the view *)
  match fails cx SInsertGroup with
  | Some _ => (JSON 500 (Error "failed to create group"), Rollback db tx)
  | None =>
  let '(g, tx) := insert_group cx tx name userID in
  match Exec cx SInsertCreator (insert_member tx (ID g) userID) with
  | inl _ => (JSON 500 (Error "failed to add creator as member"), Rollback db tx)
  | inr tx =>
  match Commit cx db tx with
  | inl _ => (JSON 500 (Error "failed to commit transaction"), Rollback db tx)
  | inr db' => (JSON 201 (GroupJSON g), db')
  end end end end end end.

Section AddMember.

(** The [email] rule of the validator package ([validate:"required,email"]). *)
Variable isEmail : string -> bool.

Definition AddMember (cx : Conn) (db : DB) (rq : Request) : Response * DB :=
  match principal rq with
  | None => (JSON 401 (Error "unauthorized"), db)
  | Some userID =>
  match param_id rq with
  | None => (JSON 400 (Error "invalid group id"), db)
  | Some groupID =>
  let '(isMember, err) :=
    ScanBool cx SCheckRequester (sql_exists_member db groupID userID) in
  if bool_decide (is_Some err) || negb isMember
  then (JSON 403 (Error "not a member of the group"), db) else
  match json_body rq with
  | None => (JSON 400 BindError, db)
  | Some email =>
  if negb (isEmail email) then (JSON 400 ValidationError, db) else
  let '(userID, exists_, err) := helpers.GetUserByEmail cx db email in
  if bool_decide (is_Some err) then (JSON 500 (Error "database error"), db) else
  if negb exists_ then (JSON 404 (Error "user not found with this email"), db) else
  let '(exists_, err) := helpers.IsGroupMember cx db groupID userID in
  if bool_decide (is_Some err) then (JSON 500 (Error "database error"), db) else
  if exists_ then (JSON 400 (Error "user already in group"), db) else
  match Exec cx SInsertMember (insert_member db groupID userID) with
  | inl _ => (JSON 500 (Error "failed to add member"), db)
  | inr db' => (JSON 200 (Message "member added"), db')
  end end end end.

End AddMember.

(** The three loop bodies of [GetBalances] over [members]. *)
Definition creditPayer (members : gmap UUID Decimal) (row : UUID * Decimal)
    : gmap UUID Decimal :=
  let '(paidBy, total) := row in
  match members !! paidBy with
  | Some bal => <[paidBy := Add bal total]> members
  | None => members
  end.

Definition debitSplit (members : gmap UUID Decimal) (row : UUID * Decimal)
    : gmap UUID Decimal :=
  let '(uid, amt) := row in
  match members !! uid with
  | Some bal => <[uid := Sub bal amt]> members
  | None => members
  end.

Definition applySettlement (members : gmap UUID Decimal)
    (row : UUID * UUID * Decimal) : gmap UUID Decimal :=
  let '(from, to, amt) := row in
  let members :=
    match members !! from with
    | Some bal => <[from := Sub bal amt]> members
    | None => members
    end in
  match members !! to with
  | Some bal => <[to := Add bal amt]> members
  | None => members
  end.

(** [for uid, amt := range members { balances = append(balances, ...) }]; Go
    leaves the order of the iteration open, here it is the order of
    [map_to_list]. *)
Definition toSlice (members : gmap UUID Decimal) : list Balance :=
  map (fun '(uid, amt) => mkBalance uid amt) (map_to_list members).

Definition GetBalances (cx : Conn) (db : DB) (rq : Request) : Response :=
  match principal rq with
  | None => JSON 401 (Error "unauthorized")
  | Some userID =>
  match param_id rq with
  | None => JSON 400 (Error "invalid group id")
  | Some groupID =>
  let '(isMember, err) := helpers.IsGroupMember cx db groupID userID in
  if bool_decide (is_Some err) || negb isMember
  then JSON 403 (Error "not a member of the group") else
  match Query cx SMembers (sql_members db groupID) with
  | inl _ => JSON 500 (Error "failed to get members")
  | inr rows =>
  match scanRows cx SMembers (fun members uid => <[uid := Zero]> members) rows ∅ with
  | None => JSON 500 (Error "failed to scan member")
  | Some members =>
  match Query cx SExpenses (sql_expenses db groupID) with
  | inl _ => JSON 500 (Error "failed to get expenses")
  | inr expRows =>
  match scanRows cx SExpenses creditPayer expRows members with
  | None => JSON 500 (Error "failed to scan expense")
  | Some members =>
  match Query cx SSplits (sql_splits db groupID) with
  | inl _ => JSON 500 (Error "failed to get expense splits")
  | inr splitRows =>
  match scanRows cx SSplits debitSplit splitRows members with
  | None => JSON 500 (Error "failed to scan split")
  | Some members =>
  match Query cx SSettlements (sql_settlements db groupID) with
  | inl _ => JSON 500 (Error "failed to get settlements")
  | inr settRows =>
  match scanRows cx SSettlements applySettlement settRows members with
  | None => JSON 500 (Error "failed to scan settlement")
  | Some members => JSON 200 (BalancesJSON (toSlice members))
  end end end end end end end end end end.

(** [SELECT u.id, u.email, u.username FROM users u
     JOIN group_members gm ON u.id = gm.user_id WHERE gm.group_id = $1] *)
Definition sql_group_members (db : DB) (groupID : UUID) : list GroupMember :=
  flat_map
    (fun u =>
       map (fun _ => mkGroupMember (u_id u) (u_email u) (u_username u))
           (List.filter
              (fun gm => (u_id u =? gm_user_id gm)%N && (gm_group_id gm =? groupID)%N)
              (group_members db)))
    (users db).

(** [ORDER BY created_at DESC] *)
Fixpoint insertDesc (e : Expense) (l : list Expense) : list Expense :=
  match l with
  | [] => [e]
  | x :: rest =>
      if e_created_at x <? e_created_at e then e :: l
      else x :: insertDesc e rest
  end.

Definition orderByCreatedAtDesc (l : list Expense) : list Expense :=
  foldr insertDesc [] l.

(** [SELECT id, description, total_amount, paid_by, created_at FROM expenses
     WHERE group_id = $1 ORDER BY created_at DESC] *)
Definition sql_group_expenses (db : DB) (groupID : UUID) : list GroupExpense :=
  map (fun e => mkGroupExpense (e_id e) (e_description e) (e_total_amount e)
                               (e_paid_by e) (e_created_at e))
      (orderByCreatedAtDesc
         (List.filter (fun e => (e_group_id e =? groupID)%N) (expenses db))).

Definition GetGroup (cx : Conn) (db : DB) (rq : Request) : Response :=
  match principal rq with
  | None => JSON 401 (Error "unauthorized")
  | Some userID =>
  match param_id rq with
  | None => JSON 400 (Error "invalid group id")
  | Some groupID =>
  match QueryRow cx SGroup (sql_group db groupID) with
  | inl _ => JSON 404 (Error "group not found")
  | inr g =>
  match Query cx SGroupMembers (sql_group_members db groupID) with
  | inl _ => JSON 500 (Error "failed to get members")
  | inr memberRows =>
  match scanRows cx SGroupMembers (fun members m => members ++ [m]) memberRows [] with
  | None => JSON 500 (Error "failed to scan member")
  | Some members =>
  match Query cx SGroupExpenses (sql_group_expenses db groupID) with
  | inl _ => JSON 500 (Error "failed to get expenses")
  | inr expenseRows =>
  match scanRows cx SGroupExpenses (fun expenses e => expenses ++ [e]) expenseRows [] with
  | None => JSON 500 (Error "failed to scan expense")
  | Some expenses =>
  (* Check if current user is a member *)
  let isMember := existsb (fun m => (MemberUserID m =? userID)%N) members in
  JSON 200
       (DetailsJSON
          (mkGroupDetails (ID g) (Name g) (CreatedBy g) (CreatedAt g) members expenses)
          isMember)
  end end end end end end end.

(** The balances of a group as [GetBalances] folds them from its four result
    sets, and from the tables. *)
Definition computeBalances (memberRows : list UUID)
    (expRows splitRows : list (UUID * Decimal))
    (settRows : list (UUID * UUID * Decimal)) : gmap UUID Decimal :=
  foldl applySettlement
    (foldl debitSplit
       (foldl creditPayer
          (foldl (fun members uid => <[uid := Zero]> members) ∅ memberRows)
          expRows)
       splitRows)
    settRows.

Definition balancesOfGroup (db : DB) (groupID : UUID) : gmap UUID Decimal :=
  computeBalances (sql_members db groupID) (sql_expenses db groupID)
                  (sql_splits db groupID) (sql_settlements db groupID).

(** ** Words of the specification *)

(** The error kinds of the specification.  They carry the names of the HTTP
    statuses the handlers answer with; a validation failure is a 400. *)
Inductive ErrorKind :=
| Unauthorized | Forbidden | NotFound | Conflict | ValidationFailed | Internal.

Definition kindOf (r : Response) : option ErrorKind :=
  if status r =? 401 then Some Unauthorized
  else if status r =? 403 then Some Forbidden
  else if status r =? 404 then Some NotFound
  else if status r =? 409 then Some Conflict
  else if status r =? 400 then Some ValidationFailed
  else if status r =? 500 then Some Internal
  else None.

(** The sum of a list of amounts, and of the balances of a response. *)
Definition sumOf (l : list Decimal) : Decimal := foldl Add Zero l.

Definition sumBalances (balances : list Balance) : Decimal :=
  sumOf (map Amount balances).

(** The balance a response gives for a user. *)
Definition balanceOf (balances : list Balance) (uid : UUID) : option Decimal :=
  option_map Amount (List.find (fun b => (UserID b =? uid)%N) balances).

(** Two responses give the same users the same amounts, as [Equal] compares
    amounts. *)
Definition sameBalances (bs bs' : list Balance) : Prop :=
  forall uid,
    match balanceOf bs uid, balanceOf bs' uid with
    | Some a, Some a' => Equal a a' = true
    | None, None => True
    | _, _ => False
    end.

(** For every expense of the group, its splits add up to its total. *)
Definition splitsOf (db : DB) (e : Expense) : list Decimal :=
  map es_amount
      (List.filter (fun es => (es_expense_id es =? e_id e)%N) (expense_splits db)).

Definition splitsBalanced (db : DB) (groupID : UUID) : bool :=
  forallb (fun e => Equal (sumOf (splitsOf db e)) (e_total_amount e))
          (List.filter (fun e => (e_group_id e =? groupID)%N) (expenses db)).

(** Every payer and every split participant of the group is a member of it. *)
Definition partiesAreMembers (db : DB) (groupID : UUID) : bool :=
  forallb (fun row => sql_exists_member db groupID row.1) (sql_expenses db groupID)
  && forallb (fun row => sql_exists_member db groupID row.1) (sql_splits db groupID).

(** The user has no expense, split or settlement in the group. *)
Definition noTransactions (db : DB) (groupID uid : UUID) : bool :=
  forallb (fun r => negb (r.1 =? uid)%N) (sql_expenses db groupID)
  && forallb (fun r => negb (r.1 =? uid)%N) (sql_splits db groupID)
  && forallb (fun r => negb (r.1.1 =? uid)%N && negb (r.1.2 =? uid)%N)
             (sql_settlements db groupID).

(** What the rows of a group ask for, user by user: the total for the payer
    of an expense, minus the share for the participant of a split, minus the
    amount for the sender and the amount for the receiver of a settlement. *)
Definition adjustments (expRows splitRows : list (UUID * Decimal))
    (settRows : list (UUID * UUID * Decimal)) : list (UUID * Decimal) :=
  expRows
  ++ map (fun r => (r.1, Neg r.2)) splitRows
  ++ flat_map (fun r => [(r.1.1, Neg r.2); (r.1.2, r.2)]) settRows.

(** A settlement recorded after all the others, and one recorded at position
    [i] of the table. *)
Definition addSettlement (db : DB) (s : Settlement) : DB :=
  mkDB (users db) (groups db) (group_members db) (expenses db)
       (expense_splits db) (settlements db ++ [s]).

Definition insertSettlement (db : DB) (i : nat) (s : Settlement) : DB :=
  mkDB (users db) (groups db) (group_members db) (expenses db)
       (expense_splits db)
       (firstn i (settlements db) ++ s :: skipn i (settlements db)).

(** Two databases hold the same rows, possibly stored in another order. *)
Definition sameSnapshot (db db' : DB) : Prop :=
  users db ≡ₚ users db' /\ groups db ≡ₚ groups db'
  /\ group_members db ≡ₚ group_members db'
  /\ expenses db ≡ₚ expenses db'
  /\ expense_splits db ≡ₚ expense_splits db'
  /\ settlements db ≡ₚ settlements db'.

(** Every group has its creator among its members. *)
Definition creatorsAreMembers (db : DB) : bool :=
  forallb (fun g => sql_exists_member db (ID g) (CreatedBy g)) (groups db).

(** Membership rows refer to groups of the [groups] table. *)
Definition membersReferToGroups (db : DB) : bool :=
  forallb (fun m => existsb (fun g => (ID g =? gm_group_id m)%N) (groups db))
          (group_members db).

(** A connection on which every call succeeds. *)
Definition healthy (cx : Conn) : Prop :=
  (forall s, fails cx s = None) /\ (forall s, bad_row cx s = None).

(** ** Auxiliary notions of the proofs *)

(** Every loop body of [GetBalances] adds an amount to the balance of a
    member and leaves the others alone. *)
Definition credit (uid : UUID) (d : Decimal) (members : gmap UUID Decimal)
    : gmap UUID Decimal :=
  alter (fun bal => Add bal d) uid members.

Fixpoint qsum (l : list Qc) : Qc :=
  match l with
  | [] => 0%Qc
  | x :: rest => (x + qsum rest)%Qc
  end.

(** The number the balances of a mapping add up to. *)
Definition mapTotal (members : gmap UUID Decimal) : Qc :=
  qsum (map (fun p => den p.2) (map_to_list members)).

(** Same members, and amounts that denote the same numbers. *)
Definition sameAmounts (m m' : gmap UUID Decimal) : Prop :=
  forall uid, option_Forall2 (fun a a' => den a = den a') (m !! uid) (m' !! uid).

(** ** Sample data *)

#[global] Instance Site_eq_dec : EqDecision Site.
Proof. solve_decision. Defined.

(** A connection on which nothing fails, and one on which the call at one
    site fails and nothing else does. *)
Definition cx0 : Conn := mkConn (fun _ => None) (fun _ => None) 7%N 0.

Definition failAt (s : Site) (e : error) : Conn :=
  mkConn (fun s' => if decide (s' = s) then Some e else None)
         (fun _ => None) 7%N 0.

(** A stand-in for the [email] rule: it only asks for a field that is not
    empty. *)
Definition isEmail0 (s : string) : bool := negb (String.eqb s "").

(** A database without any row. *)
Definition dbEmpty : DB := mkDB [] [] [] [] [] [].

(** Group 1 with members 10 and 20; 10 paid an expense of 100 that is split
    50/50 between them.  User 30 is in no group. *)
Definition db1 : DB :=
  mkDB [mkUser 10 "a@x.io" "a"; mkUser 20 "b@x.io" "b"; mkUser 30 "c@x.io" "c"]
       [mkGroup 1 "trip" 10 0]
       [mkMember 1 10; mkMember 1 20]
       [mkExpense 100 1 "dinner" (New 100 0) 10 5]
       [mkSplit 100 10 (New 5000 (-2)); mkSplit 100 20 (New 50 0)]
       [].

(** The rows of [db1] stored in another order. *)
Definition db1' : DB :=
  mkDB (users db1) (groups db1)
       [mkMember 1 20; mkMember 1 10]
       (expenses db1)
       [mkSplit 100 20 (New 50 0); mkSplit 100 10 (New 5000 (-2))]
       [].

(** The same group when 10 is its only member and the second share goes to
    user 30. *)
Definition db2 : DB :=
  mkDB (users db1) (groups db1) [mkMember 1 10] (expenses db1)
       [mkSplit 100 10 (New 50 0); mkSplit 100 30 (New 50 0)]
       [].

(** Requests about group 1: of member 10, of user 30, and of member 10 to add
    the user with some email; and a request of user 30 to create the group
    "flat". *)
Definition rq1 : Request := mkRequest (Some 10%N) (Some 1%N) None.

Definition rqOutsider : Request := mkRequest (Some 30%N) (Some 1%N) None.

Definition rqAdd (email : string) : Request :=
  mkRequest (Some 10%N) (Some 1%N) (Some email).

Definition rqCreate : Request := mkRequest (Some 30%N) None (Some "flat").

(** ** The rest of the code

    [UserExists] of db_helpers.go and [GetUserGroups] of group.go, with the
    sites of their database calls, and the migration that adds usernames. *)

Inductive SiteX := SUserExists | SUserGroups.

Record ConnX := mkConnX {
  failsX : SiteX -> option error;
  bad_rowX : SiteX -> option nat }.

(** [SELECT EXISTS(SELECT 1 FROM users WHERE id = $1)] *)
Definition sql_user_exists (db : DB) (userID : UUID) : bool :=
  existsb (fun u => (u_id u =? userID)%N) (users db).

(** [helpers.UserExists] *)
Definition UserExists (cx : ConnX) (db : DB) (userID : UUID)
    : bool * option error :=
  match failsX cx SUserExists with
  | Some e => (false, Some e)
  | None => (sql_user_exists db userID, None)
  end.

(** [ORDER BY g.created_at DESC] *)
Fixpoint insertGroupDesc (g : Group) (l : list Group) : list Group :=
  match l with
  | [] => [g]
  | x :: rest =>
      if CreatedAt x <? CreatedAt g then g :: l
      else x :: insertGroupDesc g rest
  end.

(** [SELECT g.id, g.name, g.created_by, g.created_at FROM groups g
     JOIN group_members gm ON g.id = gm.group_id
     WHERE gm.user_id = $1 ORDER BY g.created_at DESC] *)
Definition sql_user_groups (db : DB) (userID : UUID) : list Group :=
  foldr insertGroupDesc []
    (flat_map
       (fun g =>
          map (fun _ => g)
              (List.filter
                 (fun gm => (ID g =? gm_group_id gm)%N && (gm_user_id gm =? userID)%N)
                 (group_members db)))
       (groups db)).

Inductive GroupsBody :=
| GroupsError (msg : string)
| GroupsJSON (groups : list Group).

Record GroupsResponse := JSONGroups { groups_status : Z; groups_body : GroupsBody }.

Definition GetUserGroups (cx : ConnX) (db : DB) (rq : Request) : GroupsResponse :=
  match principal rq with
  | None => JSONGroups 401 (GroupsError "unauthorized")
  | Some userID =>
  match failsX cx SUserGroups with
  | Some _ => JSONGroups 500 (GroupsError "failed to get groups")
  | None =>
  match scanFrom (bad_rowX cx SUserGroups) 0 (fun groups g => groups ++ [g])
                 (sql_user_groups db userID) [] with
  | None => JSONGroups 500 (GroupsError "failed to scan group")
  | Some groups => JSONGroups 200 (GroupsJSON groups)
  end end end.

(** ** Migration 000003

    The tables before the migration have no [username] and a [category_id];
    after it, the tables the handlers read. *)

Module migration.

Record OldUser := mkOldUser { ou_id : UUID; ou_email : string }.

Record OldPersonalExpense := mkOldPE { ope_id : UUID; ope_category_id : option UUID }.

Record PersonalExpense := mkPE { pe_id : UUID; pe_category : option string }.

(** [POSITION(c IN s)]: the place of the first [c], counted from 1, and 0
    when there is none. *)
Fixpoint POSITION (c : ascii) (s : string) : Z :=
  match s with
  | EmptyString => 0
  | String a rest =>
      if Ascii.eqb a c then 1
      else let p := POSITION c rest in if p =? 0 then 0 else p + 1
  end.

(** The character occurs in the string. *)
Fixpoint hasChar (c : ascii) (s : string) : Prop :=
  match s with
  | EmptyString => False
  | String a rest => a = c \/ hasChar c rest
  end.

Fixpoint firstChars (n : nat) (s : string) : string :=
  match n, s with
  | S n', String a rest => String a (firstChars n' rest)
  | _, _ => EmptyString
  end.

(** [SUBSTRING(s FROM 1 FOR n)]; a negative length is an error. *)
Definition SUBSTRING1 (s : string) (n : Z) : option string :=
  if n <? 0 then None else Some (firstChars (Z.to_nat n) s).

Fixpoint dropChars (n : nat) (s : string) : string :=
  match n, s with
  | S n', String _ rest => dropChars n' rest
  | _, _ => s
  end.

Fixpoint onlySpaces (s : string) : bool :=
  match s with
  | EmptyString => true
  | String a rest => Ascii.eqb a " "%char && onlySpaces rest
  end.

(** A value stored in a [VARCHAR(50)] column: characters after the fiftieth
    are an error, unless they are all spaces, which are cut off. *)
Definition varchar50 (s : string) : option string :=
  if onlySpaces (dropChars 50 s) then Some (firstChars 50 s) else None.

(** [SET username = SUBSTRING(email FROM 1 FOR POSITION('@' IN email) - 1)] *)
Definition usernameOf (email : string) : option string :=
  match SUBSTRING1 email (POSITION "@"%char email - 1) with
  | Some s => varchar50 s
  | None => None
  end.

Fixpoint updateUsernames (rows : list OldUser) : option (list User) :=
  match rows with
  | [] => Some []
  | r :: rest =>
      match usernameOf (ou_email r), updateUsernames rest with
      | Some name, Some done => Some (mkUser (ou_id r) (ou_email r) name :: done)
      | _, _ => None
      end
  end.

(** The [UNIQUE] constraint of the new column. *)
Definition uniqueUsernames (rows : list User) : bool :=
  bool_decide (NoDup (map u_username rows)).

(** The statements on [users] of the up migration: [ADD COLUMN username
    VARCHAR(50) UNIQUE], the [UPDATE], [SET NOT NULL]. *)
Definition up_users (rows : list OldUser) : option (list User) :=
  match updateUsernames rows with
  | Some rows' => if uniqueUsernames rows' then Some rows' else None
  | None => None
  end.

(** [DROP COLUMN IF EXISTS category_id; ADD COLUMN category VARCHAR(50)] *)
Definition up_personal_expenses (rows : list OldPersonalExpense)
    : list PersonalExpense :=
  map (fun r => mkPE (ope_id r) None) rows.

(** [DROP COLUMN IF EXISTS username] *)
Definition down_users (rows : list User) : list OldUser :=
  map (fun u => mkOldUser (u_id u) (u_email u)) rows.

(** [DROP COLUMN IF EXISTS category; ADD COLUMN category_id UUID REFERENCES
    expense_categories(id)] *)
Definition down_personal_expenses (rows : list PersonalExpense)
    : list OldPersonalExpense :=
  map (fun r => mkOldPE (pe_id r) None) rows.

Definition up (s : list OldUser * list OldPersonalExpense)
    : option (list User * list PersonalExpense) :=
  match up_users s.1 with
  | Some us => Some (us, up_personal_expenses s.2)
  | None => None
  end.

Definition down (s : list User * list PersonalExpense)
    : list OldUser * list OldPersonalExpense :=
  (down_users s.1, down_personal_expenses s.2).

End migration.

(** ** More words for the statements *)

(** What a user paid, owes, sent and received in a group, and the balance
    these make. *)
Definition paidTotals (db : DB) (groupID uid : UUID) : list Decimal :=
  map snd (List.filter (fun r => (r.1 =? uid)%N) (sql_expenses db groupID)).

Definition shares (db : DB) (groupID uid : UUID) : list Decimal :=
  map snd (List.filter (fun r => (r.1 =? uid)%N) (sql_splits db groupID)).

Definition sentAmounts (db : DB) (groupID uid : UUID) : list Decimal :=
  map snd (List.filter (fun r => (r.1.1 =? uid)%N) (sql_settlements db groupID)).

Definition receivedAmounts (db : DB) (groupID uid : UUID) : list Decimal :=
  map snd (List.filter (fun r => (r.1.2 =? uid)%N) (sql_settlements db groupID)).

Definition netOf (db : DB) (groupID uid : UUID) : Decimal :=
  Add (Sub (Sub (sumOf (paidTotals db groupID uid)) (sumOf (shares db groupID uid)))
           (sumOf (sentAmounts db groupID uid)))
      (sumOf (receivedAmounts db groupID uid)).

(** Both parties of every settlement of the group are members of it. *)
Definition settlersAreMembers (db : DB) (groupID : UUID) : bool :=
  forallb (fun r => sql_exists_member db groupID r.1.1
                    && sql_exists_member db groupID r.1.2)
          (sql_settlements db groupID).

(** Rows added to the four tables of the balances. *)
Definition addRows (db : DB) (ms : list Member) (es : list Expense)
    (ss : list ExpenseSplit) (ts : list Settlement) : DB :=
  mkDB (users db) (groups db) (group_members db ++ ms) (expenses db ++ es)
       (expense_splits db ++ ss) (settlements db ++ ts).

(** The added rows belong to other groups: members, expenses and settlements
    by their group, splits by the expense they refer to. *)
Definition rowsOfOtherGroups (db : DB) (groupID : UUID) (ms : list Member)
    (es : list Expense) (ss : list ExpenseSplit) (ts : list Settlement) : bool :=
  forallb (fun m => negb (gm_group_id m =? groupID)%N) ms
  && forallb (fun e => negb (e_group_id e =? groupID)%N) es
  && forallb (fun s =>
                forallb (fun e => negb ((es_expense_id s =? e_id e)%N
                                        && (e_group_id e =? groupID)%N))
                        (expenses db))
             ss
  && forallb (fun t => negb (s_group_id t =? groupID)%N) ts.

(** No membership pair occurs twice. *)
Definition membersUnique (db : DB) : Prop :=
  NoDup (map (fun m => (gm_group_id m, gm_user_id m)) (group_members db)).

(** No row of the tables of the balances mentions the group. *)
Definition freshGroup (db : DB) (groupID : UUID) : bool :=
  forallb (fun g => negb (ID g =? groupID)%N) (groups db)
  && forallb (fun m => negb (gm_group_id m =? groupID)%N) (group_members db)
  && forallb (fun e => negb (e_group_id e =? groupID)%N) (expenses db)
  && forallb (fun t => negb (s_group_id t =? groupID)%N) (settlements db).

(** Newest first. *)
Fixpoint newestFirst (times : list Z) : Prop :=
  match times with
  | [] => True
  | t :: rest => Forall (fun t' => t' <= t) rest /\ newestFirst rest
  end.

(** Insertion before the first element with a smaller key: the order of
    [insertDesc] and [insertGroupDesc]. *)
Fixpoint insertBy {A} (key : A -> Z) (x : A) (l : list A) : list A :=
  match l with
  | [] => [x]
  | y :: rest => if key y <? key x then x :: l else y :: insertBy key x rest
  end.

(** A connection of the other sites on which nothing fails. *)
Definition cxX0 : ConnX := mkConnX (fun _ => None) (fun _ => None).

(** * Facts *)

(** ** Decimal arithmetic is exact *)

Section DecimalFacts.

Lemma RescalePair_unfold a b :
  RescalePair a b =
  let m := Z.min (exp a) (exp b) in
  (New (value a * 10 ^ (exp a - m)) m, New (value b * 10 ^ (exp b - m)) m).
Proof.
  destruct a as [va ea], b as [vb eb]. unfold RescalePair, rescale.
  cbn [value exp]. cbv zeta.
  destruct (Z.eqb_spec ea eb) as [->|Hne].
  - rewrite Z.min_id, Z.sub_diag, Z.pow_0_r, !Z.mul_1_r. reflexivity.
  - destruct (Z.min_spec ea eb) as [[Hlt ->]|[Hle ->]].
    + rewrite Z.eqb_refl. cbn [negb].
      destruct (Z.eqb_spec eb ea); [lia|].
      destruct (Z.ltb_spec ea eb); [|lia].
      rewrite Z.sub_diag, Z.pow_0_r, Z.mul_1_r. reflexivity.
    + destruct (Z.eqb_spec eb ea); [lia|]. cbn [negb].
      destruct (Z.eqb_spec ea eb); [lia|].
      destruct (Z.ltb_spec eb ea); [|lia].
      rewrite Z.sub_diag, Z.pow_0_r, Z.mul_1_r. reflexivity.
Qed.

Lemma Add_unfold a b :
  Add a b =
  let m := Z.min (exp a) (exp b) in
  New (value a * 10 ^ (exp a - m) + value b * 10 ^ (exp b - m)) m.
Proof. unfold Add. rewrite RescalePair_unfold. reflexivity. Qed.

Lemma Sub_unfold a b :
  Sub a b =
  let m := Z.min (exp a) (exp b) in
  New (value a * 10 ^ (exp a - m) - value b * 10 ^ (exp b - m)) m.
Proof. unfold Sub. rewrite RescalePair_unfold. reflexivity. Qed.

Lemma Sub_Add_Neg a b : Sub a b = Add a (Neg b).
Proof. rewrite Sub_unfold, Add_unfold. cbn. f_equal. lia. Qed.

(** Two additions to the same balance commute, exponent included. *)
Lemma Add_swap a x y : Add (Add a x) y = Add (Add a y) x.
Proof.
  rewrite !Add_unfold. cbn [value exp]. cbv zeta.
  set (m1 := Z.min (exp a) (exp x)). set (m2 := Z.min (exp a) (exp y)).
  assert (Hm : Z.min m1 (exp y) = Z.min m2 (exp x)) by lia.
  rewrite <- Hm. set (m := Z.min m1 (exp y)). f_equal.
  rewrite !Z.mul_add_distr_r, <- !Z.mul_assoc, <- !Z.pow_add_r by lia.
  replace (exp a - m1 + (m1 - m)) with (exp a - m) by lia.
  replace (exp x - m1 + (m1 - m)) with (exp x - m) by lia.
  replace (exp a - m2 + (m2 - m)) with (exp a - m) by lia.
  replace (exp y - m2 + (m2 - m)) with (exp y - m) by lia.
  lia.
Qed.

Lemma ten_neq_0 : ~ (10 # 1 == 0)%Q.
Proof. discriminate. Qed.

Lemma toQ_scale v e k :
  0 <= k -> (toQ (New (v * 10 ^ k) (e - k)) == toQ (New v e))%Q.
Proof.
  intros Hk. unfold toQ. cbn [value exp].
  rewrite inject_Z_mult, Zpower_Qpower by assumption.
  change (inject_Z 10) with (10 # 1)%Q.
  rewrite <- Qmult_assoc, <- Qpower_plus by apply ten_neq_0.
  replace (k + (e - k)) with e by lia. reflexivity.
Qed.

Lemma toQ_rescaled d m :
  m <= exp d -> (toQ (New (value d * 10 ^ (exp d - m)) m) == toQ d)%Q.
Proof.
  intros Hm. replace m with (exp d - (exp d - m)) at 2 by lia.
  rewrite toQ_scale by lia. destruct d; reflexivity.
Qed.

Lemma toQ_plus v1 v2 e :
  (toQ (New (v1 + v2) e) == toQ (New v1 e) + toQ (New v2 e))%Q.
Proof. unfold toQ. cbn [value exp]. rewrite inject_Z_plus. ring. Qed.

Lemma toQ_eq_same_exp v1 v2 e :
  (toQ (New v1 e) == toQ (New v2 e))%Q <-> v1 = v2.
Proof.
  unfold toQ. cbn [value exp].
  rewrite Qmult_inj_r by (apply Qpower_not_0, ten_neq_0).
  apply inject_Z_injective.
Qed.

Lemma toQ_Add a b : (toQ (Add a b) == toQ a + toQ b)%Q.
Proof.
  rewrite Add_unfold. cbv zeta.
  rewrite toQ_plus, !toQ_rescaled by lia. reflexivity.
Qed.

Lemma toQ_Neg a : (toQ (Neg a) == - toQ a)%Q.
Proof. unfold toQ, Neg. cbn [value exp]. rewrite inject_Z_opp. ring. Qed.

Lemma den_eq a b : den a = den b <-> (toQ a == toQ b)%Q.
Proof. apply Q2Qc_eq_iff. Qed.

Lemma den_Add a b : den (Add a b) = (den a + den b)%Qc.
Proof.
  apply Qc_is_canon. unfold den. cbn. rewrite !Qred_correct. apply toQ_Add.
Qed.

Lemma den_Neg a : den (Neg a) = (- den a)%Qc.
Proof.
  apply Qc_is_canon. unfold den. cbn. rewrite !Qred_correct. apply toQ_Neg.
Qed.

Lemma den_Sub a b : den (Sub a b) = (den a - den b)%Qc.
Proof. rewrite Sub_Add_Neg, den_Add, den_Neg. reflexivity. Qed.

Lemma den_Zero : den Zero = 0%Qc.
Proof. apply Qc_is_canon. reflexivity. Qed.

Lemma Equal_den a b : Equal a b = true <-> den a = den b.
Proof.
  rewrite den_eq. unfold Equal, Cmp. rewrite RescalePair_unfold. cbv zeta.
  cbn [value].
  set (m := Z.min (exp a) (exp b)).
  rewrite <- (toQ_rescaled a m), <- (toQ_rescaled b m) by lia.
  rewrite toQ_eq_same_exp.
  destruct (Z.compare_spec (value a * 10 ^ (exp a - m)) (value b * 10 ^ (exp b - m)));
    split; intros; try congruence; lia.
Qed.

Lemma IsZero_den a : IsZero a = true <-> den a = 0%Qc.
Proof.
  rewrite <- den_Zero, den_eq. unfold IsZero.
  destruct a as [v e]. cbn [value].
  rewrite Z.eqb_eq.
  assert (H0 : (toQ Zero == toQ (New 0 e))%Q) by (unfold toQ; cbn [value exp]; change (inject_Z 0) with 0%Q;
      rewrite !Qmult_0_l; reflexivity).
  rewrite H0, toQ_eq_same_exp. reflexivity.
Qed.

End DecimalFacts.

(** ** Folding the result sets *)

Section Folds.

Lemma scanFrom_Some {A St} bad i (body : St -> A -> St) rows s s' :
  scanFrom bad i body rows s = Some s' -> s' = foldl body s rows.
Proof.
  revert i s. induction rows as [|r rows IH]; intros i s; cbn.
  - congruence.
  - destruct (decide (bad = Some i)); [discriminate|]. apply IH.
Qed.

Lemma scanFrom_None {A St} i (body : St -> A -> St) rows s :
  scanFrom None i body rows s = Some (foldl body s rows).
Proof.
  revert i s. induction rows as [|r rows IH]; intros i s; cbn; [reflexivity|].
  destruct (decide (None = Some i)); [discriminate|]. apply IH.
Qed.

Lemma foldl_perm {A B} (f : A -> B -> A) (l1 l2 : list B) :
  (forall a x y, f (f a x) y = f (f a y) x) ->
  l1 ≡ₚ l2 -> forall a, foldl f a l1 = foldl f a l2.
Proof.
  intros Hf. induction 1 as [|x l1 l2 _ IH|x y l|l1 l2 l3 _ IH1 _ IH2];
    intros a; cbn.
  - reflexivity.
  - apply IH.
  - rewrite Hf. reflexivity.
  - rewrite IH1. apply IH2.
Qed.

End Folds.

(** ** The loop bodies as credits *)

Section Credits.

Implicit Types (m : gmap UUID Decimal) (k uid : UUID) (d : Decimal).

Lemma creditPayer_credit m k d : creditPayer m (k, d) = credit k d m.
Proof. unfold creditPayer, credit. rewrite alter_alt. reflexivity. Qed.

Lemma debitSplit_credit m k d : debitSplit m (k, d) = credit k (Neg d) m.
Proof.
  unfold debitSplit, credit. rewrite alter_alt.
  destruct (m !! k); [|reflexivity]. rewrite Sub_Add_Neg. reflexivity.
Qed.

Lemma applySettlement_credit m from to d :
  applySettlement m (from, to, d) = credit to d (credit from (Neg d) m).
Proof.
  unfold applySettlement. rewrite <- debitSplit_credit, <- creditPayer_credit.
  reflexivity.
Qed.

Lemma lookup_credit m k d uid :
  credit k d m !! uid =
  if decide (k = uid) then (fun bal => Add bal d) <$> m !! uid else m !! uid.
Proof.
  unfold credit. rewrite lookup_alter.
  destruct (decide (k = uid)) as [->|]; reflexivity.
Qed.

Lemma dom_credit m k d : dom (credit k d m) = dom m.
Proof. unfold credit. apply leibniz_equiv, dom_alter. Qed.

Lemma credit_absent m k d : m !! k = None -> credit k d m = m.
Proof.
  intros H. unfold credit. rewrite alter_alt, H. reflexivity.
Qed.

Lemma credit_comm m k1 d1 k2 d2 :
  credit k1 d1 (credit k2 d2 m) = credit k2 d2 (credit k1 d1 m).
Proof.
  apply map_eq. intros uid. rewrite !lookup_credit.
  destruct (decide (k1 = uid)), (decide (k2 = uid)); try reflexivity.
  destruct (m !! uid); cbn; [|reflexivity]. rewrite Add_swap. reflexivity.
Qed.

Lemma creditPayer_comm m r1 r2 :
  creditPayer (creditPayer m r1) r2 = creditPayer (creditPayer m r2) r1.
Proof.
  destruct r1, r2. rewrite !creditPayer_credit. apply credit_comm.
Qed.

Lemma debitSplit_comm m r1 r2 :
  debitSplit (debitSplit m r1) r2 = debitSplit (debitSplit m r2) r1.
Proof.
  destruct r1, r2. rewrite !debitSplit_credit. apply credit_comm.
Qed.

Lemma applySettlement_comm m r1 r2 :
  applySettlement (applySettlement m r1) r2 =
  applySettlement (applySettlement m r2) r1.
Proof.
  destruct r1 as [[f1 t1] d1], r2 as [[f2 t2] d2].
  rewrite !applySettlement_credit.
  rewrite (credit_comm _ f2 _ t1), (credit_comm _ f2 _ f1).
  rewrite (credit_comm _ t2 _ t1), (credit_comm _ t2 _ f1).
  reflexivity.
Qed.

Lemma initMembers_comm m (u1 u2 : UUID) :
  <[u2 := Zero]> (<[u1 := Zero]> m) = <[u1 := Zero]> (<[u2 := Zero]> m).
Proof.
  destruct (decide (u1 = u2)) as [->|Hne]; [reflexivity|].
  apply insert_insert_ne. congruence.
Qed.

End Credits.

(** ** Totals *)

Section Totals.

Implicit Types (m : gmap UUID Decimal) (k uid : UUID) (d : Decimal).

Lemma qsum_app l1 l2 : qsum (l1 ++ l2) = (qsum l1 + qsum l2)%Qc.
Proof.
  induction l1 as [|x l1 IH]; cbn.
  - rewrite Qcplus_0_l. reflexivity.
  - rewrite IH. apply Qcplus_assoc.
Qed.

Lemma qsum_perm l1 l2 : l1 ≡ₚ l2 -> qsum l1 = qsum l2.
Proof.
  induction 1 as [|x l1 l2 _ IH|x y l|l1 l2 l3 _ IH1 _ IH2]; cbn.
  - reflexivity.
  - rewrite IH. reflexivity.
  - ring.
  - congruence.
Qed.

Lemma den_foldl_Add a l :
  den (foldl Add a l) = (den a + qsum (map den l))%Qc.
Proof.
  revert a. induction l as [|x l IH]; intros a; cbn.
  - ring.
  - rewrite IH, den_Add. ring.
Qed.

Lemma den_sumOf l : den (sumOf l) = qsum (map den l).
Proof. unfold sumOf. rewrite den_foldl_Add, den_Zero. ring. Qed.

Lemma den_sumBalances_toSlice m : den (sumBalances (toSlice m)) = mapTotal m.
Proof.
  unfold sumBalances, toSlice, mapTotal. rewrite den_sumOf, !map_map.
  f_equal. apply map_ext. intros [? ?]. reflexivity.
Qed.

Lemma mapTotal_insert_fresh m k d :
  m !! k = None -> mapTotal (<[k := d]> m) = (den d + mapTotal m)%Qc.
Proof.
  intros H. unfold mapTotal.
  rewrite (qsum_perm _ (map (fun p => den p.2) ((k, d) :: map_to_list m))).
  - reflexivity.
  - apply Permutation_map, map_to_list_insert, H.
Qed.

Lemma mapTotal_split m k d :
  m !! k = Some d -> mapTotal m = (den d + mapTotal (delete k m))%Qc.
Proof.
  intros H. rewrite <- (mapTotal_insert_fresh (delete k m) k d)
    by apply lookup_delete_eq.
  rewrite insert_delete_id by assumption. reflexivity.
Qed.

Lemma mapTotal_credit_member m k d :
  is_Some (m !! k) -> mapTotal (credit k d m) = (mapTotal m + den d)%Qc.
Proof.
  intros [bal Hbal]. unfold credit. rewrite (alter_alt_Some _ _ _ _ Hbal).
  rewrite <- insert_delete_eq.
  rewrite mapTotal_insert_fresh by apply lookup_delete_eq.
  rewrite (mapTotal_split m k bal Hbal), den_Add. ring.
Qed.

Lemma mapTotal_zero m :
  (forall k d, m !! k = Some d -> den d = 0%Qc) -> mapTotal m = 0%Qc.
Proof.
  intros H. unfold mapTotal.
  assert (Hall : Forall (fun p : UUID * Decimal => den p.2 = 0%Qc) (map_to_list m)).
  { apply Forall_forall. intros [k d] Hin. apply (H k).
    apply elem_of_map_to_list, Hin. }
  induction Hall as [|p l Hp _ IH]; cbn; [reflexivity|].
  rewrite Hp, IH. ring.
Qed.

(** The member rows: every one gets the balance [Zero]. *)
Lemma lookup_initMembers (rows : list UUID) m uid :
  foldl (fun members u => <[u := Zero]> members) m rows !! uid =
  if decide (uid ∈ rows) then Some Zero else m !! uid.
Proof.
  revert m. induction rows as [|r rows IH]; intros m; cbn.
  - destruct (decide (uid ∈ [])) as [Hin|]; [|reflexivity].
    apply elem_of_nil in Hin. contradiction.
  - rewrite IH.
    destruct (decide (uid ∈ rows)) as [Hin|Hnin].
    + rewrite decide_True by (right; assumption). reflexivity.
    + destruct (decide (uid = r)) as [->|Hne].
      * rewrite decide_True by left. apply lookup_insert_eq.
      * rewrite decide_False; [apply lookup_insert_ne; congruence|].
        intros Hc. apply elem_of_cons in Hc as [?|?]; contradiction.
Qed.

Lemma foldl_credit_dom {A} (step : gmap UUID Decimal -> A -> gmap UUID Decimal)
    (rows : list A) m :
  (forall m r, dom (step m r) = dom m) -> dom (foldl step m rows) = dom m.
Proof.
  intros Hstep. revert m. induction rows as [|r rows IH]; intros m; cbn.
  - reflexivity.
  - rewrite IH. apply Hstep.
Qed.

Lemma dom_creditPayer m r : dom (creditPayer m r) = dom m.
Proof. destruct r. rewrite creditPayer_credit. apply dom_credit. Qed.

Lemma dom_debitSplit m r : dom (debitSplit m r) = dom m.
Proof. destruct r. rewrite debitSplit_credit. apply dom_credit. Qed.

Lemma dom_applySettlement m r : dom (applySettlement m r) = dom m.
Proof.
  destruct r as [[? ?] ?]. rewrite applySettlement_credit, !dom_credit.
  reflexivity.
Qed.

Lemma mapTotal_creditPayer_all (rows : list (UUID * Decimal)) m :
  Forall (fun r => r.1 ∈ dom m) rows ->
  mapTotal (foldl creditPayer m rows) =
  (mapTotal m + qsum (map (fun r => den r.2) rows))%Qc.
Proof.
  intros Hall. revert m Hall.
  induction rows as [|[k d] rows IH]; intros m Hall; cbn [foldl map qsum fst snd].
  - ring.
  - inversion Hall as [|? ? Hk Hrest]; subst. cbn in Hk.
    rewrite IH.
    + rewrite creditPayer_credit, mapTotal_credit_member
        by (apply elem_of_dom; assumption).
      ring.
    + rewrite dom_creditPayer. assumption.
Qed.

Lemma mapTotal_debitSplit_all (rows : list (UUID * Decimal)) m :
  Forall (fun r => r.1 ∈ dom m) rows ->
  mapTotal (foldl debitSplit m rows) =
  (mapTotal m - qsum (map (fun r => den r.2) rows))%Qc.
Proof.
  intros Hall. revert m Hall.
  induction rows as [|[k d] rows IH]; intros m Hall; cbn [foldl map qsum fst snd].
  - ring.
  - inversion Hall as [|? ? Hk Hrest]; subst. cbn in Hk.
    rewrite IH.
    + rewrite debitSplit_credit, mapTotal_credit_member, den_Neg
        by (apply elem_of_dom; assumption).
      ring.
    + rewrite dom_debitSplit. assumption.
Qed.

End Totals.

(** ** Sums over result sets *)

Section Sums.

Lemma qsum_map_ext_in {A} (f g : A -> Qc) l :
  (forall x, In x l -> f x = g x) -> qsum (map f l) = qsum (map g l).
Proof.
  intros H. induction l as [|x l IH]; cbn; [reflexivity|].
  rewrite H by (left; reflexivity). rewrite IH; [reflexivity|].
  intros y Hy. apply H. right. assumption.
Qed.

Lemma qsum_map_filter {A} (f : A -> Qc) (P : A -> bool) l :
  qsum (map f (List.filter P l)) =
  qsum (map (fun x => if P x then f x else 0%Qc) l).
Proof.
  induction l as [|x l IH]; cbn; [reflexivity|].
  destruct (P x); cbn; rewrite IH; ring.
Qed.

Lemma qsum_flat_map {A B} (f : B -> Qc) (h : A -> list B) l :
  qsum (map f (flat_map h l)) = qsum (map (fun x => qsum (map f (h x))) l).
Proof.
  induction l as [|x l IH]; cbn; [reflexivity|].
  rewrite map_app, qsum_app, IH. reflexivity.
Qed.

Lemma qsum_map_zero {A} (l : list A) : qsum (map (fun _ => 0%Qc) l) = 0%Qc.
Proof. induction l as [|x l IH]; cbn; [reflexivity|]. rewrite IH. ring. Qed.

Lemma qsum_map_plus {A} (f g : A -> Qc) l :
  qsum (map (fun x => (f x + g x)%Qc) l) = (qsum (map f l) + qsum (map g l))%Qc.
Proof. induction l as [|x l IH]; cbn; [ring|]. rewrite IH. ring. Qed.

Lemma qsum_swap {A B} (F : A -> B -> Qc) l1 l2 :
  qsum (map (fun x => qsum (map (fun y => F x y) l2)) l1) =
  qsum (map (fun y => qsum (map (fun x => F x y) l1)) l2).
Proof.
  induction l1 as [|x l1 IH]; cbn.
  - rewrite qsum_map_zero. reflexivity.
  - rewrite IH, qsum_map_plus. reflexivity.
Qed.

(** When the splits of every expense of the group add up to its total, the
    split rows and the expense rows of the group add up to the same number. *)
Lemma splitsBalanced_sums db g :
  splitsBalanced db g = true ->
  qsum (map (fun r => den r.2) (sql_splits db g)) =
  qsum (map (fun r => den r.2) (sql_expenses db g)).
Proof.
  intros Hbal. unfold sql_splits, sql_expenses.
  rewrite qsum_flat_map.
  rewrite (qsum_map_ext_in _
    (fun es => qsum (map
       (fun e => if (es_expense_id es =? e_id e)%N && (e_group_id e =? g)%N
                 then den (es_amount es) else 0%Qc) (expenses db)))).
  2:{ intros es _. rewrite map_map. cbn [snd]. apply qsum_map_filter. }
  rewrite qsum_swap, map_map. cbn [snd].
  rewrite qsum_map_filter. apply qsum_map_ext_in. intros e He.
  destruct (N.eqb_spec (e_group_id e) g) as [Hg|Hg].
  - unfold splitsBalanced in Hbal. rewrite forallb_forall in Hbal.
    assert (Hin : In e (List.filter (fun e => (e_group_id e =? g)%N) (expenses db))).
    { apply filter_In. split; [assumption|]. apply N.eqb_eq, Hg. }
    apply Hbal, Equal_den in Hin. rewrite <- Hin, den_sumOf.
    unfold splitsOf. rewrite map_map, qsum_map_filter.
    apply qsum_map_ext_in. intros es _. rewrite andb_true_r. reflexivity.
  - transitivity (qsum (map (fun _ : ExpenseSplit => 0%Qc) (expense_splits db)));
      [|apply qsum_map_zero].
    apply qsum_map_ext_in. intros es _. rewrite andb_false_r. reflexivity.
Qed.

End Sums.

(** ** What a successful [GetBalances] returns *)

Section GetBalancesFacts.

Lemma GetBalances_inv cx db rq :
  status (GetBalances cx db rq) = 200 ->
  exists userID groupID,
    principal rq = Some userID /\ param_id rq = Some groupID /\
    sql_exists_member db groupID userID = true /\
    GetBalances cx db rq =
    JSON 200 (BalancesJSON (toSlice (balancesOfGroup db groupID))).
Proof.
  unfold GetBalances, helpers.IsGroupMember, ScanBool, QueryRow, Query, scanRows.
  destruct (principal rq) as [u|]; [|discriminate].
  destruct (param_id rq) as [g|]; [|discriminate].
  destruct (fails cx SIsGroupMember); [discriminate|].
  destruct (sql_exists_member db g u) eqn:Hmem; [|discriminate].
  cbn [bool_decide negb orb].
  rewrite bool_decide_false by (intros [? ?]; discriminate). cbn [orb].
  destruct (fails cx SMembers); [discriminate|].
  destruct (scanFrom _ _ _ _ _) as [m1|] eqn:H1; [|discriminate].
  apply scanFrom_Some in H1. subst m1.
  destruct (fails cx SExpenses); [discriminate|].
  destruct (scanFrom _ _ _ _ _) as [m2|] eqn:H2; [|discriminate].
  apply scanFrom_Some in H2. subst m2.
  destruct (fails cx SSplits); [discriminate|].
  destruct (scanFrom _ _ _ _ _) as [m3|] eqn:H3; [|discriminate].
  apply scanFrom_Some in H3. subst m3.
  destruct (fails cx SSettlements); [discriminate|].
  destruct (scanFrom _ _ _ _ _) as [m4|] eqn:H4; [|discriminate].
  apply scanFrom_Some in H4. subst m4.
  intros _. exists u, g. repeat split; try reflexivity. assumption.
Qed.

Lemma GetBalances_healthy cx db rq userID groupID :
  healthy cx ->
  principal rq = Some userID -> param_id rq = Some groupID ->
  sql_exists_member db groupID userID = true ->
  GetBalances cx db rq =
  JSON 200 (BalancesJSON (toSlice (balancesOfGroup db groupID))).
Proof.
  intros [Hf Hb] Hu Hg Hmem.
  unfold GetBalances, helpers.IsGroupMember, ScanBool, QueryRow, Query, scanRows.
  rewrite Hu, Hg, !Hf, !Hb, Hmem, !scanFrom_None. reflexivity.
Qed.

Lemma sql_exists_member_In db g u :
  sql_exists_member db g u = true <-> In u (sql_members db g).
Proof.
  unfold sql_exists_member, sql_members.
  rewrite existsb_exists, in_map_iff. split.
  - intros [m [Hin Hm]]. apply andb_true_iff in Hm as [Hg Hu].
    exists m. split; [apply N.eqb_eq, Hu|].
    apply filter_In. split; assumption.
  - intros [m [Hu Hin]]. apply filter_In in Hin as [Hin Hg].
    exists m. split; [assumption|].
    rewrite Hg. apply N.eqb_eq, Hu.
Qed.

Lemma lookup_initMembers_db db g uid :
  foldl (fun (members : gmap UUID Decimal) u => <[u := Zero]> members) ∅
        (sql_members db g) !! uid =
  if sql_exists_member db g uid then Some Zero else None.
Proof.
  rewrite lookup_initMembers.
  destruct (sql_exists_member db g uid) eqn:Hmem.
  - rewrite decide_True; [reflexivity|].
    apply list_elem_of_In, sql_exists_member_In, Hmem.
  - rewrite decide_False; [apply lookup_empty|].
    intros Hin. apply list_elem_of_In, sql_exists_member_In in Hin. congruence.
Qed.

(** The users of the mapping are the members of the group. *)
Lemma elem_of_dom_balancesOfGroup db g uid :
  uid ∈ dom (balancesOfGroup db g) <-> sql_exists_member db g uid = true.
Proof.
  unfold balancesOfGroup, computeBalances.
  rewrite (foldl_credit_dom applySettlement) by apply dom_applySettlement.
  rewrite (foldl_credit_dom debitSplit) by apply dom_debitSplit.
  rewrite (foldl_credit_dom creditPayer) by apply dom_creditPayer.
  rewrite elem_of_dom, lookup_initMembers_db.
  destruct (sql_exists_member db g uid); split; intros H;
    try reflexivity; try discriminate; eauto.
  destruct H; discriminate.
Qed.

Lemma balanceOf_toSlice (m : gmap UUID Decimal) uid :
  balanceOf (toSlice m) uid = m !! uid.
Proof.
  unfold balanceOf, toSlice.
  destruct (m !! uid) as [d|] eqn:Hm.
  - apply elem_of_map_to_list in Hm.
    pose proof (NoDup_fst_map_to_list m) as Hnd.
    induction (map_to_list m) as [|[k v] l IH]; [inversion Hm|].
    cbn. destruct (N.eqb_spec k uid) as [->|Hne].
    + cbn. apply elem_of_cons in Hm as [Heq|Hin]; [congruence|].
      inversion Hnd as [|? ? Hnotin _]; subst. exfalso. apply Hnotin.
      apply list_elem_of_fmap. exists (uid, d). split; [reflexivity|assumption].
    + apply IH.
      * apply elem_of_cons in Hm as [Heq|Hin]; [congruence|assumption].
      * inversion Hnd; assumption.
  - assert (Hnot : forall v, (uid, v) ∉ map_to_list m).
    { intros v Hin. apply elem_of_map_to_list in Hin. congruence. }
    induction (map_to_list m) as [|[k v] l IH]; [reflexivity|].
    cbn. destruct (N.eqb_spec k uid) as [->|Hne].
    + exfalso. apply (Hnot v). left.
    + apply IH. intros v' Hin. apply (Hnot v'). right. assumption.
Qed.

End GetBalancesFacts.

(** ** The order of the returned slice

    [toSlice] lists the mapping in one order where Go may take any.  A sum of
    balances and the balance of a user are the same in every order, so what
    is proved of the slice of [toSlice] holds of each of its permutations. *)

Section SliceOrder.

Lemma sumBalances_perm bs bs' :
  bs ≡ₚ bs' -> Equal (sumBalances bs) (sumBalances bs') = true.
Proof.
  intros H. apply Equal_den. unfold sumBalances. rewrite !den_sumOf.
  apply qsum_perm, Permutation_map, Permutation_map, H.
Qed.

Lemma balanceOf_Some_In bs uid d :
  NoDup (map UserID bs) ->
  balanceOf bs uid = Some d <-> In (mkBalance uid d) bs.
Proof.
  unfold balanceOf. induction bs as [|[k v] bs IH]; cbn [map List.find UserID].
  - intros _. split; [discriminate|intros []].
  - intros Hnd. apply NoDup_cons in Hnd as [Hk Hnd].
    destruct (N.eqb_spec k uid) as [->|Hne]; cbn [option_map Amount].
    + split.
      * intros [= ->]. left. reflexivity.
      * intros [[= ->]|Hin]; [reflexivity|].
        exfalso. apply Hk. apply list_elem_of_In, in_map_iff.
        exists (mkBalance uid d). split; [reflexivity|assumption].
    + rewrite (IH Hnd). split.
      * intros Hin. right. assumption.
      * intros [[= ? ?]|Hin]; [contradiction|assumption].
Qed.

Lemma balanceOf_perm bs bs' uid :
  NoDup (map UserID bs) -> bs ≡ₚ bs' -> balanceOf bs uid = balanceOf bs' uid.
Proof.
  intros Hnd Hperm.
  assert (Hnd' : NoDup (map UserID bs')).
  { assert (Hp : map UserID bs ≡ₚ map UserID bs')
      by apply Permutation_map, Hperm.
    rewrite <- Hp. exact Hnd. }
  destruct (balanceOf bs uid) as [d|] eqn:Hd.
  - symmetry. apply balanceOf_Some_In; [assumption|].
    apply (Permutation_in _ Hperm), balanceOf_Some_In; assumption.
  - destruct (balanceOf bs' uid) as [d'|] eqn:Hd'; [|reflexivity].
    apply balanceOf_Some_In in Hd'; [|assumption].
    apply (Permutation_in _ (Permutation_sym Hperm)) in Hd'.
    apply balanceOf_Some_In in Hd'; [congruence|assumption].
Qed.

Lemma NoDup_toSlice (m : gmap UUID Decimal) : NoDup (map UserID (toSlice m)).
Proof.
  unfold toSlice. rewrite map_map.
  rewrite (map_ext _ fst) by (intros [? ?]; reflexivity).
  exact (NoDup_fst_map_to_list m).
Qed.

End SliceOrder.

(** * The claims *)

Lemma initMembers_total db g :
  mapTotal (foldl (fun (members : gmap UUID Decimal) u => <[u := Zero]> members) ∅
                  (sql_members db g)) = 0%Qc.
Proof.
  apply mapTotal_zero. intros k d. rewrite lookup_initMembers_db.
  destruct (sql_exists_member db g k); [|discriminate].
  intros [= <-]. apply den_Zero.
Qed.

Lemma members_Forall db g (rows : list (UUID * Decimal)) :
  forallb (fun row => sql_exists_member db g row.1) rows = true ->
  Forall (fun r => r.1 ∈ dom (foldl (fun (members : gmap UUID Decimal) u =>
                                       <[u := Zero]> members) ∅ (sql_members db g)))
         rows.
Proof.
  rewrite forallb_forall. intros H. apply Forall_forall. intros r Hr.
  apply list_elem_of_In, H in Hr. apply elem_of_dom.
  rewrite lookup_initMembers_db, Hr. eauto.
Qed.

(** C1, amended: for a group without settlements in which the splits of every
    expense add up to its total and every payer and split participant is a
    member, the balances that [GetBalances] returns add up to exactly zero. *)
Theorem C1_zero_sum cx db rq g bs :
  param_id rq = Some g ->
  GetBalances cx db rq = JSON 200 (BalancesJSON bs) ->
  sql_settlements db g = [] ->
  splitsBalanced db g = true ->
  partiesAreMembers db g = true ->
  IsZero (sumBalances bs) = true.
Proof.
  intros Hg Hok Hsett Hbal Hparties.
  destruct (GetBalances_inv cx db rq) as (u & g' & _ & Hg' & _ & Heq).
  { rewrite Hok. reflexivity. }
  rewrite Hg in Hg'. injection Hg' as <-.
  rewrite Hok in Heq. injection Heq as ->.
  apply IsZero_den. rewrite den_sumBalances_toSlice.
  unfold balancesOfGroup, computeBalances. rewrite Hsett. cbn [foldl].
  apply andb_true_iff in Hparties as [Hpay Hsplit].
  rewrite mapTotal_debitSplit_all.
  2:{ rewrite (foldl_credit_dom creditPayer) by apply dom_creditPayer.
      apply members_Forall, Hsplit. }
  rewrite mapTotal_creditPayer_all by apply members_Forall, Hpay.
  rewrite initMembers_total, (splitsBalanced_sums db g Hbal). ring.
Qed.

Lemma C1_zero_sum_witness :
  IsZero (sumBalances [mkBalance 10 (New 5000 (-2)); mkBalance 20 (New (-50) 0)])
  = true.
Proof.
  apply (C1_zero_sum cx0 db1 rq1 1%N); vm_compute; reflexivity.
Defined.

(** C1 as stated fails: in [db2] there is no settlement and the two splits add
    up to the total of the expense, but one share goes to a non-member and the
    balances add up to 50. *)
Lemma C1_counterexample :
  GetBalances cx0 db2 rq1 = JSON 200 (BalancesJSON [mkBalance 10 (New 50 0)])
  /\ sql_settlements db2 1 = []
  /\ splitsBalanced db2 1 = true
  /\ IsZero (sumBalances [mkBalance 10 (New 50 0)]) = false.
Proof. repeat split; vm_compute; reflexivity. Qed.

Lemma balancesOfGroup_addSettlement db s :
  balancesOfGroup (addSettlement db s) (s_group_id s) =
  applySettlement (balancesOfGroup db (s_group_id s))
                  (s_from_user s, s_to_user s, s_amount s).
Proof.
  unfold balancesOfGroup, computeBalances, sql_settlements.
  cbn [addSettlement settlements].
  rewrite List.filter_app, map_app. cbn [List.filter].
  rewrite N.eqb_refl. cbn [map]. rewrite foldl_snoc. reflexivity.
Qed.

Lemma mapTotal_applySettlement (m : gmap UUID Decimal) from to d :
  is_Some (m !! from) -> is_Some (m !! to) ->
  mapTotal (applySettlement m (from, to, d)) = mapTotal m.
Proof.
  intros Hfrom Hto. rewrite applySettlement_credit.
  rewrite mapTotal_credit_member.
  - rewrite mapTotal_credit_member by assumption. rewrite den_Neg. ring.
  - apply elem_of_dom. rewrite dom_credit. apply elem_of_dom, Hto.
Qed.

(** C2, amended: when a settlement of amount A from X to Y is recorded after
    the others and X and Y are both members of the group, the balances add up
    to the same number as before; when moreover X and Y differ, the balance of
    X is the former one minus A, the balance of Y the former one plus A, and
    no other balance changes. *)
Theorem C2_settlement_neutral cx cx' db rq s bs bs' :
  param_id rq = Some (s_group_id s) ->
  GetBalances cx db rq = JSON 200 (BalancesJSON bs) ->
  GetBalances cx' (addSettlement db s) rq = JSON 200 (BalancesJSON bs') ->
  sql_exists_member db (s_group_id s) (s_from_user s) = true ->
  sql_exists_member db (s_group_id s) (s_to_user s) = true ->
  Equal (sumBalances bs') (sumBalances bs) = true
  /\ (s_from_user s <> s_to_user s ->
      exists bx by_,
        balanceOf bs (s_from_user s) = Some bx
        /\ balanceOf bs (s_to_user s) = Some by_
        /\ balanceOf bs' (s_from_user s) = Some (Sub bx (s_amount s))
        /\ balanceOf bs' (s_to_user s) = Some (Add by_ (s_amount s)))
  /\ (forall uid, uid <> s_from_user s -> uid <> s_to_user s ->
      balanceOf bs' uid = balanceOf bs uid).
Proof.
  intros Hg Hok Hok' HX HY.
  destruct (GetBalances_inv cx db rq) as (u & g' & _ & Hg' & _ & Heq).
  { rewrite Hok. reflexivity. }
  rewrite Hg in Hg'. injection Hg' as <-.
  rewrite Hok in Heq. injection Heq as ->.
  destruct (GetBalances_inv cx' (addSettlement db s) rq) as (u' & g' & _ & Hg' & _ & Heq).
  { rewrite Hok'. reflexivity. }
  rewrite Hg in Hg'. injection Hg' as <-.
  rewrite Hok' in Heq. injection Heq as ->.
  rewrite balancesOfGroup_addSettlement.
  set (m := balancesOfGroup db (s_group_id s)).
  apply elem_of_dom_balancesOfGroup, elem_of_dom in HX, HY. fold m in HX, HY.
  split; [|split].
  - apply Equal_den. rewrite !den_sumBalances_toSlice.
    apply mapTotal_applySettlement; assumption.
  - intros Hne. destruct HX as [bx HX], HY as [by_ HY].
    exists bx, by_. rewrite !balanceOf_toSlice, applySettlement_credit.
    rewrite !lookup_credit.
    rewrite (decide_False (P := s_to_user s = s_from_user s)) by congruence.
    rewrite !decide_True by reflexivity.
    rewrite (decide_False (P := s_from_user s = s_to_user s)) by congruence.
    rewrite HX, HY. cbn. rewrite Sub_Add_Neg. auto.
  - intros uid Hx Hy. rewrite !balanceOf_toSlice, applySettlement_credit.
    rewrite !lookup_credit, !decide_False by congruence. reflexivity.
Qed.

Lemma C2_settlement_neutral_witness :
  Equal (sumBalances [mkBalance 10 (New 10000 (-2)); mkBalance 20 (New (-100) 0)])
        (sumBalances [mkBalance 10 (New 5000 (-2)); mkBalance 20 (New (-50) 0)])
  = true.
Proof.
  apply (C2_settlement_neutral cx0 cx0 db1 rq1 (mkSettlement 1 20 10 (New 50 0)));
    vm_compute; reflexivity.
Defined.

(** Group 1 after member 20 pays member 10 a settlement of 50: the balance of
    10 goes from +50 to +100 and that of 20 from -50 to -100. *)
Example settlement_scenario :
  GetBalances cx0 (addSettlement db1 (mkSettlement 1 20 10 (New 50 0))) rq1 =
  JSON 200
    (BalancesJSON [mkBalance 10 (New 10000 (-2)); mkBalance 20 (New (-100) 0)]).
Proof. vm_compute. reflexivity. Qed.

(** C2 as stated fails.  A settlement of 5 from member 10 to user 30, who is
    not a member of group 1, takes 5 off the sum of the balances.  A settlement
    of 5 from member 10 to member 10 leaves the balance of 10 at 50, where the
    claim takes 5 off it. *)
Lemma C2_counterexample :
  (GetBalances cx0 db1 rq1 =
     JSON 200 (BalancesJSON [mkBalance 10 (New 5000 (-2)); mkBalance 20 (New (-50) 0)])
   /\ GetBalances cx0 (addSettlement db1 (mkSettlement 1 10 30 (New 5 0))) rq1 =
     JSON 200 (BalancesJSON [mkBalance 10 (New 4500 (-2)); mkBalance 20 (New (-50) 0)])
   /\ Equal (sumBalances [mkBalance 10 (New 4500 (-2)); mkBalance 20 (New (-50) 0)])
            (sumBalances [mkBalance 10 (New 5000 (-2)); mkBalance 20 (New (-50) 0)])
      = false)
  /\ (GetBalances cx0 (addSettlement db1 (mkSettlement 1 10 10 (New 5 0))) rq1 =
     JSON 200 (BalancesJSON [mkBalance 10 (New 5000 (-2)); mkBalance 20 (New (-50) 0)])
   /\ Equal (New 5000 (-2)) (Sub (New 5000 (-2)) (New 5 0)) = false).
Proof. repeat split; vm_compute; reflexivity. Qed.

(** ** Amounts that denote the same number *)

Section SameAmounts.

Implicit Types (m : gmap UUID Decimal) (k uid : UUID) (d : Decimal).

Lemma sameAmounts_refl m : sameAmounts m m.
Proof.
  intros uid. destruct (m !! uid); constructor. reflexivity.
Qed.

Lemma sameAmounts_credit m m' k d :
  sameAmounts m m' -> sameAmounts (credit k d m) (credit k d m').
Proof.
  intros H uid. specialize (H uid). rewrite !lookup_credit.
  destruct (decide (k = uid)); [|assumption].
  destruct H as [a a' Ha|]; constructor. rewrite !den_Add, Ha. reflexivity.
Qed.

Lemma sameAmounts_applySettlement m m' r :
  sameAmounts m m' -> sameAmounts (applySettlement m r) (applySettlement m' r).
Proof.
  destruct r as [[from to] d]. intros H. rewrite !applySettlement_credit.
  apply sameAmounts_credit, sameAmounts_credit, H.
Qed.

Lemma sameAmounts_foldl m m' rows :
  sameAmounts m m' ->
  sameAmounts (foldl applySettlement m rows) (foldl applySettlement m' rows).
Proof.
  revert m m'. induction rows as [|r rows IH]; intros m m' H; cbn [foldl].
  - assumption.
  - apply IH, sameAmounts_applySettlement, H.
Qed.

(** A settlement of a user with themselves: the amount goes off the balance
    and back on. *)
Lemma sameAmounts_self m uid d :
  sameAmounts m (applySettlement m (uid, uid, d)).
Proof.
  intros k. rewrite applySettlement_credit, !lookup_credit.
  destruct (decide (uid = k)); [|apply sameAmounts_refl].
  destruct (m !! k); constructor. cbn. rewrite !den_Add, den_Neg. ring.
Qed.

Lemma sameAmounts_sameBalances m m' :
  sameAmounts m m' -> sameBalances (toSlice m) (toSlice m').
Proof.
  intros H uid. rewrite !balanceOf_toSlice.
  destruct (H uid) as [a a' Ha|]; [apply Equal_den, Ha|exact I].
Qed.

End SameAmounts.

Lemma sql_settlements_insert db i s g :
  sql_settlements (insertSettlement db i s) g =
  sql_settlements (mkDB [] [] [] [] [] (firstn i (settlements db))) g
  ++ (if (s_group_id s =? g)%N
      then [(s_from_user s, s_to_user s, s_amount s)] else [])
  ++ sql_settlements (mkDB [] [] [] [] [] (skipn i (settlements db))) g.
Proof.
  unfold sql_settlements. cbn [insertSettlement settlements].
  rewrite List.filter_app, map_app. cbn [List.filter].
  destruct (s_group_id s =? g)%N; reflexivity.
Qed.

Lemma sql_settlements_split db i g :
  sql_settlements db g =
  sql_settlements (mkDB [] [] [] [] [] (firstn i (settlements db))) g
  ++ sql_settlements (mkDB [] [] [] [] [] (skipn i (settlements db))) g.
Proof.
  unfold sql_settlements. cbn [settlements].
  rewrite <- map_app, <- List.filter_app, firstn_skipn. reflexivity.
Qed.

(** C10: a settlement whose sender is its receiver, recorded anywhere among
    the settlements, changes no balance: [GetBalances] returns the same users
    with amounts equal to the ones it returns without that settlement. *)
Theorem C10_self_settlement cx cx' db rq i s bs bs' :
  s_from_user s = s_to_user s ->
  GetBalances cx db rq = JSON 200 (BalancesJSON bs) ->
  GetBalances cx' (insertSettlement db i s) rq = JSON 200 (BalancesJSON bs') ->
  sameBalances bs bs'.
Proof.
  intros Hself Hok Hok'.
  destruct (GetBalances_inv cx db rq) as (u & g & _ & Hg & _ & Heq).
  { rewrite Hok. reflexivity. }
  rewrite Hok in Heq. injection Heq as ->.
  destruct (GetBalances_inv cx' (insertSettlement db i s) rq)
    as (u' & g' & _ & Hg' & _ & Heq).
  { rewrite Hok'. reflexivity. }
  rewrite Hg in Hg'. injection Hg' as <-.
  rewrite Hok' in Heq. injection Heq as ->.
  apply sameAmounts_sameBalances.
  unfold balancesOfGroup, computeBalances.
  rewrite sql_settlements_insert, (sql_settlements_split db i g).
  change (sql_members (insertSettlement db i s) g) with (sql_members db g).
  change (sql_expenses (insertSettlement db i s) g) with (sql_expenses db g).
  change (sql_splits (insertSettlement db i s) g) with (sql_splits db g).
  rewrite !foldl_app. apply sameAmounts_foldl.
  destruct (s_group_id s =? g)%N; cbn [foldl]; [|apply sameAmounts_refl].
  rewrite Hself. apply sameAmounts_self.
Qed.

Lemma C10_self_settlement_witness :
  sameBalances [mkBalance 10 (New 5000 (-2)); mkBalance 20 (New (-50) 0)]
               [mkBalance 10 (New 5000 (-2)); mkBalance 20 (New (-5000) (-2))].
Proof.
  apply (C10_self_settlement cx0 cx0 db1 rq1 0
           (mkSettlement 1 20 20 (New 125 (-2))));
    vm_compute; reflexivity.
Defined.

(** ** The order of the rows does not matter *)

Section RowOrder.

Lemma filter_perm {A} (P : A -> bool) (l l' : list A) :
  l ≡ₚ l' -> List.filter P l ≡ₚ List.filter P l'.
Proof.
  induction 1 as [|x l1 l2 _ IH|x y l|l1 l2 l3 _ IH1 _ IH2]; cbn.
  - reflexivity.
  - destruct (P x); [constructor|]; assumption.
  - destruct (P x), (P y); try reflexivity. apply perm_swap.
  - etransitivity; eassumption.
Qed.

Lemma flat_map_pointwise_perm {A B} (f f' : A -> list B) (l : list A) :
  (forall x, f x ≡ₚ f' x) -> flat_map f l ≡ₚ flat_map f' l.
Proof.
  intros Hf. induction l as [|x l IH]; cbn; [reflexivity|].
  apply Permutation_app; [apply Hf|assumption].
Qed.

Lemma flat_map_perm {A B} (f f' : A -> list B) (l l' : list A) :
  (forall x, f x ≡ₚ f' x) -> l ≡ₚ l' -> flat_map f l ≡ₚ flat_map f' l'.
Proof.
  intros Hf Hl. etransitivity; [apply flat_map_pointwise_perm, Hf|].
  apply Permutation_flat_map, Hl.
Qed.

Lemma sql_members_perm db db' g :
  sameSnapshot db db' -> sql_members db g ≡ₚ sql_members db' g.
Proof.
  intros (_ & _ & H & _). apply Permutation_map, filter_perm, H.
Qed.

Lemma sql_expenses_perm db db' g :
  sameSnapshot db db' -> sql_expenses db g ≡ₚ sql_expenses db' g.
Proof.
  intros (_ & _ & _ & H & _). apply Permutation_map, filter_perm, H.
Qed.

Lemma sql_splits_perm db db' g :
  sameSnapshot db db' -> sql_splits db g ≡ₚ sql_splits db' g.
Proof.
  intros (_ & _ & _ & He & Hs & _). apply flat_map_perm; [|exact Hs].
  intros es. apply Permutation_map, filter_perm, He.
Qed.

Lemma sql_settlements_perm db db' g :
  sameSnapshot db db' -> sql_settlements db g ≡ₚ sql_settlements db' g.
Proof.
  intros (_ & _ & _ & _ & _ & H). apply Permutation_map, filter_perm, H.
Qed.

Lemma computeBalances_perm ms ms' es es' ss ss' ts ts' :
  ms ≡ₚ ms' -> es ≡ₚ es' -> ss ≡ₚ ss' -> ts ≡ₚ ts' ->
  computeBalances ms es ss ts = computeBalances ms' es' ss' ts'.
Proof.
  intros Hm He Hs Ht. unfold computeBalances.
  rewrite (foldl_perm applySettlement ts ts' applySettlement_comm Ht).
  rewrite (foldl_perm debitSplit ss ss' debitSplit_comm Hs).
  rewrite (foldl_perm creditPayer es es' creditPayer_comm He).
  rewrite (foldl_perm _ ms ms' (fun m u1 u2 => initMembers_comm m u1 u2) Hm).
  reflexivity.
Qed.

Lemma sameSnapshot_refl db : sameSnapshot db db.
Proof. repeat split; reflexivity. Qed.

End RowOrder.

(** C9: two runs of [GetBalances] over the same rows return the same users
    with the same amounts, whatever the connections did and in whatever order
    the tables hold their rows. *)
Theorem C9_deterministic cx cx' db db' rq bs bs' :
  sameSnapshot db db' ->
  GetBalances cx db rq = JSON 200 (BalancesJSON bs) ->
  GetBalances cx' db' rq = JSON 200 (BalancesJSON bs') ->
  bs ≡ₚ bs' /\ forall uid, balanceOf bs uid = balanceOf bs' uid.
Proof.
  intros Hsnap Hok Hok'.
  destruct (GetBalances_inv cx db rq) as (u & g & _ & Hg & _ & Heq).
  { rewrite Hok. reflexivity. }
  rewrite Hok in Heq. injection Heq as ->.
  destruct (GetBalances_inv cx' db' rq) as (u' & g' & _ & Hg' & _ & Heq).
  { rewrite Hok'. reflexivity. }
  rewrite Hg in Hg'. injection Hg' as <-.
  rewrite Hok' in Heq. injection Heq as ->.
  assert (Hsame : balancesOfGroup db g = balancesOfGroup db' g).
  { apply computeBalances_perm.
    - apply sql_members_perm, Hsnap.
    - apply sql_expenses_perm, Hsnap.
    - apply sql_splits_perm, Hsnap.
    - apply sql_settlements_perm, Hsnap. }
  rewrite Hsame. split; reflexivity.
Qed.

Lemma C9_deterministic_witness :
  [mkBalance 10 (New 5000 (-2)); mkBalance 20 (New (-50) 0)]
  ≡ₚ [mkBalance 10 (New 5000 (-2)); mkBalance 20 (New (-50) 0)]
  /\ forall uid,
      balanceOf [mkBalance 10 (New 5000 (-2)); mkBalance 20 (New (-50) 0)] uid =
      balanceOf [mkBalance 10 (New 5000 (-2)); mkBalance 20 (New (-50) 0)] uid.
Proof.
  apply (C9_deterministic cx0 cx0 db1 db1' rq1).
  - repeat split; try reflexivity; apply perm_swap.
  - vm_compute; reflexivity.
  - vm_compute; reflexivity.
Defined.

(** ** Members and non-members *)

Section Guard.

Implicit Types (m : gmap UUID Decimal) (k uid : UUID) (d : Decimal).

Lemma foldl_debitSplit_credits m (rows : list (UUID * Decimal)) :
  foldl debitSplit m rows =
  foldl creditPayer m (map (fun r => (r.1, Neg r.2)) rows).
Proof.
  revert m. induction rows as [|[k d] rows IH]; intros m; cbn [foldl map];
    [reflexivity|].
  rewrite IH. cbn [fst snd].
  rewrite debitSplit_credit, creditPayer_credit. reflexivity.
Qed.

Lemma foldl_applySettlement_credits m (rows : list (UUID * UUID * Decimal)) :
  foldl applySettlement m rows =
  foldl creditPayer m (flat_map (fun r => [(r.1.1, Neg r.2); (r.1.2, r.2)]) rows).
Proof.
  revert m. induction rows as [|[[from to] d] rows IH]; intros m;
    cbn [foldl flat_map app]; [reflexivity|].
  rewrite IH. cbn [fst snd].
  rewrite applySettlement_credit, !creditPayer_credit. reflexivity.
Qed.

Lemma computeBalances_adjustments ms es ss ts :
  computeBalances ms es ss ts =
  foldl creditPayer
        (foldl (fun (members : gmap UUID Decimal) u => <[u := Zero]> members) ∅ ms)
        (adjustments es ss ts).
Proof.
  unfold computeBalances, adjustments.
  rewrite !foldl_app, <- foldl_debitSplit_credits, <- foldl_applySettlement_credits.
  reflexivity.
Qed.

(** An adjustment for a user who has no balance does nothing, so it may as
    well be left out. *)
Lemma foldl_creditPayer_filter (P : UUID -> bool) m (rows : list (UUID * Decimal)) :
  (forall k, P k = true <-> is_Some (m !! k)) ->
  foldl creditPayer m rows =
  foldl creditPayer m (List.filter (fun r => P r.1) rows).
Proof.
  revert m. induction rows as [|[k d] rows IH]; intros m HP;
    cbn [foldl List.filter fst]; [reflexivity|].
  destruct (P k) eqn:Hk; cbn [foldl].
  - apply IH. intros k'. rewrite HP, <- !elem_of_dom, dom_creditPayer.
    reflexivity.
  - rewrite creditPayer_credit, credit_absent; [apply IH, HP|].
    destruct (m !! k) eqn:Hm; [|reflexivity].
    assert (P k = true) by (apply HP; eauto). congruence.
Qed.

Lemma lookup_foldl_creditPayer_other m (rows : list (UUID * Decimal)) uid :
  forallb (fun r => negb (r.1 =? uid)%N) rows = true ->
  foldl creditPayer m rows !! uid = m !! uid.
Proof.
  revert m. induction rows as [|[k d] rows IH]; intros m H; cbn [foldl];
    [reflexivity|].
  cbn [forallb fst] in H. apply andb_true_iff in H as [Hk Hrest].
  rewrite IH by assumption. rewrite creditPayer_credit, lookup_credit.
  rewrite decide_False; [reflexivity|].
  intros ->. rewrite N.eqb_refl in Hk. discriminate.
Qed.

Lemma noTransactions_adjustments db g uid :
  noTransactions db g uid = true ->
  forallb (fun r => negb (r.1 =? uid)%N)
          (adjustments (sql_expenses db g) (sql_splits db g) (sql_settlements db g))
  = true.
Proof.
  unfold noTransactions, adjustments. intros H.
  apply andb_true_iff in H as [H Hsett]. apply andb_true_iff in H as [Hexp Hsplit].
  rewrite !forallb_app, Hexp. cbn [andb]. apply andb_true_iff. split.
  - rewrite forallb_forall in *. intros r Hr.
    apply in_map_iff in Hr as [r' [<- Hr']]. cbn [fst]. apply Hsplit, Hr'.
  - rewrite forallb_forall in *. intros r Hr.
    apply in_flat_map in Hr as [r' [Hr' Hin]].
    apply Hsett, andb_true_iff in Hr' as [Hf Ht].
    destruct Hin as [<-|[<-|[]]]; assumption.
Qed.

End Guard.

(** C8, amended: the users of the mapping that [GetBalances] returns are
    exactly the members of the group, each once; a member without transactions
    has the balance zero; and the mapping is the one obtained when every
    adjustment that names a non-member is left out: no expense whose payer is
    a non-member, no split of a non-member and no settlement between
    non-members changes anything, while a settlement between a member and a
    non-member changes the balance of the member only. *)
Theorem C8_members_only cx db rq g bs :
  param_id rq = Some g ->
  GetBalances cx db rq = JSON 200 (BalancesJSON bs) ->
  (forall uid, is_Some (balanceOf bs uid) <-> sql_exists_member db g uid = true)
  /\ NoDup (map UserID bs)
  /\ (forall uid, sql_exists_member db g uid = true ->
        noTransactions db g uid = true -> balanceOf bs uid = Some Zero)
  /\ bs = toSlice
       (foldl creditPayer
          (foldl (fun (members : gmap UUID Decimal) u => <[u := Zero]> members) ∅
                 (sql_members db g))
          (List.filter (fun r => sql_exists_member db g r.1)
             (adjustments (sql_expenses db g) (sql_splits db g)
                          (sql_settlements db g)))).
Proof.
  intros Hg Hok.
  destruct (GetBalances_inv cx db rq) as (u & g' & _ & Hg' & _ & Heq).
  { rewrite Hok. reflexivity. }
  rewrite Hg in Hg'. injection Hg' as <-.
  rewrite Hok in Heq. injection Heq as ->.
  split; [|split; [|split]].
  - intros uid. rewrite balanceOf_toSlice, <- elem_of_dom.
    apply elem_of_dom_balancesOfGroup.
  - unfold toSlice. rewrite map_map.
    rewrite (map_ext _ fst) by (intros [? ?]; reflexivity).
    exact (NoDup_fst_map_to_list (balancesOfGroup db g)).
  - intros uid Hmem Hno. rewrite balanceOf_toSlice.
    unfold balancesOfGroup. rewrite computeBalances_adjustments.
    rewrite lookup_foldl_creditPayer_other
      by apply noTransactions_adjustments, Hno.
    rewrite lookup_initMembers_db, Hmem. reflexivity.
  - f_equal. unfold balancesOfGroup. rewrite computeBalances_adjustments.
    apply foldl_creditPayer_filter. intros k.
    rewrite lookup_initMembers_db.
    destruct (sql_exists_member db g k); split; intros H;
      try reflexivity; try discriminate; eauto.
    destruct H; discriminate.
Qed.

Lemma C8_members_only_witness :
  (is_Some (balanceOf [mkBalance 10 (New 50 0)] 30%N)
   <-> sql_exists_member db2 1 30 = true)
  /\ NoDup (map UserID [mkBalance 10 (New 50 0)]).
Proof.
  destruct (C8_members_only cx0 db2 rq1 1%N [mkBalance 10 (New 50 0)])
    as (H1 & H2 & _); [vm_compute; reflexivity..|].
  split; [apply H1|exact H2].
Defined.

(** C8 as stated fails: user 30 is not a member of group 1, and a settlement
    of 5 from 30 to member 10 raises the balance of 10 from 50 to 55. *)
Lemma C8_counterexample :
  sql_exists_member db1 1 30 = false
  /\ GetBalances cx0 db1 rq1 =
     JSON 200 (BalancesJSON [mkBalance 10 (New 5000 (-2)); mkBalance 20 (New (-50) 0)])
  /\ GetBalances cx0 (addSettlement db1 (mkSettlement 1 30 10 (New 5 0))) rq1 =
     JSON 200 (BalancesJSON [mkBalance 10 (New 5500 (-2)); mkBalance 20 (New (-50) 0)])
  /\ Equal (New 5500 (-2)) (New 5000 (-2)) = false.
Proof. repeat split; vm_compute; reflexivity. Qed.

(** ** Creating a group *)

Section CreateGroupFacts.

Lemma sql_exists_member_app db g u row :
  sql_exists_member
    (mkDB (users db) (groups db) (group_members db ++ [row])
          (expenses db) (expense_splits db) (settlements db)) g u =
  sql_exists_member db g u
  || (gm_group_id row =? g)%N && (gm_user_id row =? u)%N.
Proof.
  unfold sql_exists_member. cbn [group_members].
  rewrite existsb_app. cbn [existsb]. rewrite orb_false_r. reflexivity.
Qed.

Lemma creatorsAreMembers_created db g :
  creatorsAreMembers db = true ->
  creatorsAreMembers
    (mkDB (users db) (groups db ++ [g])
          (group_members db ++ [mkMember (ID g) (CreatedBy g)])
          (expenses db) (expense_splits db) (settlements db)) = true.
Proof.
  unfold creatorsAreMembers. cbn [groups]. intros H.
  rewrite forallb_app. apply andb_true_iff. split.
  - rewrite forallb_forall in *. intros g' Hg'.
    pose proof (sql_exists_member_app
                  (mkDB (users db) (groups db ++ [g]) (group_members db)
                        (expenses db) (expense_splits db) (settlements db))
                  (ID g') (CreatedBy g') (mkMember (ID g) (CreatedBy g))) as Happ.
    cbn [users groups group_members expenses expense_splits settlements] in Happ.
    rewrite Happ. apply orb_true_iff. left. apply (H g' Hg').
  - cbn [forallb]. rewrite andb_true_r.
    pose proof (sql_exists_member_app
                  (mkDB (users db) (groups db ++ [g]) (group_members db)
                        (expenses db) (expense_splits db) (settlements db))
                  (ID g) (CreatedBy g) (mkMember (ID g) (CreatedBy g))) as Happ.
    cbn [users groups group_members expenses expense_splits settlements] in Happ.
    rewrite Happ. cbn [gm_group_id gm_user_id]. rewrite !N.eqb_refl.
    apply orb_true_r.
Qed.

(** [AddMember] adds at most one membership row and touches nothing else, so
    the creator of every group stays a member of it. *)
Lemma AddMember_database isEmail cx db rq :
  (AddMember isEmail cx db rq).2 = db
  \/ exists row,
      (AddMember isEmail cx db rq).2 =
      mkDB (users db) (groups db) (group_members db ++ [row])
           (expenses db) (expense_splits db) (settlements db).
Proof.
  unfold AddMember, helpers.GetUserByEmail, helpers.IsGroupMember, ScanBool,
    QueryRow, Exec, insert_member.
  repeat match goal with
         | |- context [principal rq] => destruct (principal rq)
         | |- context [param_id rq] => destruct (param_id rq)
         | |- context [json_body rq] => destruct (json_body rq)
         | |- context [fails cx ?s] => destruct (fails cx s)
         | |- context [sql_exists_member ?a ?b ?c] =>
             destruct (sql_exists_member a b c)
         | |- context [isEmail ?e] => destruct (isEmail e)
         | |- context [sql_user_by_email ?a ?b] =>
             destruct (sql_user_by_email a b)
         end; cbn; eauto.
Qed.

Lemma AddMember_keeps_creators isEmail cx db rq :
  creatorsAreMembers db = true ->
  creatorsAreMembers (AddMember isEmail cx db rq).2 = true.
Proof.
  intros H. destruct (AddMember_database isEmail cx db rq) as [->|[row ->]];
    [assumption|].
  unfold creatorsAreMembers in *. cbn [groups]. rewrite forallb_forall in *.
  intros g Hg. rewrite sql_exists_member_app, (H g Hg). reflexivity.
Qed.

End CreateGroupFacts.

(** C3: [CreateGroup] either answers 201 and leaves the database with the new
    group row and the membership row of its creator, both added, or answers
    something else and leaves the database as it was; the latter whenever the
    begin, one of the two inserts or the commit fails.  A database in which
    every group has its creator as a member stays so, under [CreateGroup] and
    under [AddMember], the other handler that writes. *)
Theorem C3_create_group_atomic cx db rq :
  ((status (CreateGroup cx db rq).1 = 201
    /\ exists userID name,
        principal rq = Some userID /\ json_body rq = Some name
        /\ let g := mkGroup (gen_id cx) name userID (now cx) in
           body (CreateGroup cx db rq).1 = GroupJSON g
           /\ (CreateGroup cx db rq).2 =
              mkDB (users db) (groups db ++ [g])
                   (group_members db ++ [mkMember (ID g) userID])
                   (expenses db) (expense_splits db) (settlements db))
   \/ (status (CreateGroup cx db rq).1 <> 201 /\ (CreateGroup cx db rq).2 = db))
  /\ (forall s, In s [SBegin; SInsertGroup; SInsertCreator; SCommit] ->
      is_Some (fails cx s) ->
      status (CreateGroup cx db rq).1 <> 201 /\ (CreateGroup cx db rq).2 = db)
  /\ (creatorsAreMembers db = true ->
      creatorsAreMembers (CreateGroup cx db rq).2 = true
      /\ forall isEmail cx' rq',
          creatorsAreMembers (AddMember isEmail cx' db rq').2 = true).
Proof.
  assert (Hadd : creatorsAreMembers db = true ->
                 forall isEmail cx' rq',
                   creatorsAreMembers (AddMember isEmail cx' db rq').2 = true).
  { intros H isEmail cx' rq'. apply AddMember_keeps_creators, H. }
  revert Hadd.
  unfold CreateGroup, Begin, Commit, Rollback, Exec, insert_group, insert_member.
  intros Hadd.
  destruct (principal rq) as [u|]; cbn [fst snd status].
  2:{ repeat split; try (right; split); try lia; auto. }
  destruct (json_body rq) as [name|]; cbn [fst snd status].
  2:{ repeat split; try (right; split); try lia; auto. }
  destruct (validName name); cbn [negb fst snd status].
  2:{ repeat split; try (right; split); try lia; auto. }
  destruct (fails cx SBegin) as [e1|] eqn:E1; cbn [fst snd status].
  { repeat split; try (right; split); try lia; auto. }
  destruct (fails cx SInsertGroup) as [e2|] eqn:E2; cbn [fst snd status].
  { repeat split; try (right; split); try lia; auto. }
  cbn [ID]. destruct (fails cx SInsertCreator) as [e3|] eqn:E3; cbn [fst snd status].
  { repeat split; try (right; split); try lia; auto. }
  destruct (sql_exists_member _ _ _) eqn:Hdup; cbn [fst snd status].
  { repeat split; try (right; split); try lia; auto. }
  destruct (fails cx SCommit) as [e4|] eqn:E4; cbn [fst snd status body].
  { repeat split; try (right; split); try lia; auto. }
  split; [|split].
  - left. split; [reflexivity|]. exists u, name. repeat split; reflexivity.
  - intros s Hs [e He]. exfalso.
    destruct Hs as [<-|[<-|[<-|[<-|[]]]]]; congruence.
  - intros H. split; [|apply Hadd, H].
    apply (creatorsAreMembers_created db (mkGroup (gen_id cx) name u (now cx)) H).
Qed.

Lemma C3_create_group_atomic_witness :
  status (CreateGroup (failAt SInsertCreator ErrConn) db1 rqCreate).1 <> 201
  /\ (CreateGroup (failAt SInsertCreator ErrConn) db1 rqCreate).2 = db1.
Proof.
  apply (C3_create_group_atomic (failAt SInsertCreator ErrConn) db1 rqCreate)
    with (s := SInsertCreator).
  - vm_compute. auto.
  - vm_compute. eauto.
Defined.

(** ** Who may read *)

Section ReadFacts.

Lemma foldl_snoc_id {A} (rows acc : list A) :
  foldl (fun l x => l ++ [x]) acc rows = acc ++ rows.
Proof.
  revert acc. induction rows as [|r rows IH]; intros acc; cbn [foldl].
  - rewrite app_nil_r. reflexivity.
  - rewrite IH, <- app_assoc. reflexivity.
Qed.

Lemma GetBalances_gate cx db rq u g :
  principal rq = Some u -> param_id rq = Some g ->
  sql_exists_member db g u = false ->
  GetBalances cx db rq = JSON 403 (Error "not a member of the group").
Proof.
  intros Hu Hg Hmem.
  unfold GetBalances, helpers.IsGroupMember, ScanBool, QueryRow.
  rewrite Hu, Hg, Hmem.
  destruct (fails cx SIsGroupMember); cbn [negb]; [reflexivity|].
  rewrite orb_true_r. reflexivity.
Qed.

Lemma GetBalances_never_404 cx db rq : status (GetBalances cx db rq) <> 404.
Proof.
  unfold GetBalances, helpers.IsGroupMember, ScanBool, QueryRow, Query, scanRows.
  repeat match goal with
         | |- context [match ?x with _ => _ end] => destruct x; cbn [status]
         | |- context [if ?x then _ else _] => destruct x; cbn [status]
         end; lia.
Qed.

Lemma not_member_not_listed db g u :
  sql_exists_member db g u = false ->
  existsb (fun m => (MemberUserID m =? u)%N) (sql_group_members db g) = false.
Proof.
  intros Hmem. apply not_true_is_false. intros Hex.
  apply existsb_exists in Hex as [m [Hin Hm]].
  unfold sql_group_members in Hin.
  apply in_flat_map in Hin as [usr [_ Hin]].
  apply in_map_iff in Hin as [gm [<- Hgm]]. cbn [MemberUserID] in Hm.
  apply filter_In in Hgm as [Hgm Hcond].
  apply andb_true_iff in Hcond as [Hid Hgrp].
  apply N.eqb_eq in Hm, Hid, Hgrp.
  assert (sql_exists_member db g u = true); [|congruence].
  apply existsb_exists. exists gm. split; [assumption|].
  apply andb_true_iff. split; apply N.eqb_eq; congruence.
Qed.

End ReadFacts.

(** C4, amended: for an authenticated principal who is not a member of the
    group, [GetBalances] answers 403 and returns no balance.  [GetGroup] has no
    such gate: whenever it answers 200 for that principal it returns the
    details of the group with its members and expenses and the flag
    [is_member] false, and it answers 200 whenever the group exists and the
    reads succeed. *)
Theorem C4_non_member_reads cx db rq u g :
  principal rq = Some u -> param_id rq = Some g ->
  sql_exists_member db g u = false ->
  GetBalances cx db rq = JSON 403 (Error "not a member of the group")
  /\ (status (GetGroup cx db rq) = 200 ->
      exists grp,
        In grp (groups db) /\ ID grp = g
        /\ GetGroup cx db rq =
           JSON 200
             (DetailsJSON
                (mkGroupDetails (ID grp) (Name grp) (CreatedBy grp) (CreatedAt grp)
                                (sql_group_members db g) (sql_group_expenses db g))
                false))
  /\ (healthy cx -> sql_group db g <> [] -> status (GetGroup cx db rq) = 200).
Proof.
  intros Hu Hg Hmem. split; [apply (GetBalances_gate cx db rq u g); assumption|].
  unfold GetGroup, QueryRow, Query, scanRows. rewrite Hu, Hg. split.
  - destruct (fails cx SGroup); [discriminate|].
    destruct (sql_group db g) as [|grp rest] eqn:Hgrp; [discriminate|].
    destruct (fails cx SGroupMembers); [discriminate|].
    destruct (scanFrom _ _ _ _ _) as [ms|] eqn:H1; [|discriminate].
    apply scanFrom_Some in H1. rewrite foldl_snoc_id in H1. cbn [app] in H1.
    subst ms.
    destruct (fails cx SGroupExpenses); [discriminate|].
    destruct (scanFrom _ _ _ _ _) as [es|] eqn:H2; [|discriminate].
    apply scanFrom_Some in H2. rewrite foldl_snoc_id in H2. cbn [app] in H2.
    subst es.
    intros _. exists grp.
    assert (Hin : In grp (sql_group db g)) by (rewrite Hgrp; left; reflexivity).
    apply filter_In in Hin as [Hin Hid]. apply N.eqb_eq in Hid.
    repeat split; try assumption.
    rewrite (not_member_not_listed db g u Hmem). reflexivity.
  - intros [Hf Hb] Hgrp. rewrite !Hf, !Hb, !scanFrom_None.
    destruct (sql_group db g); [contradiction|]. reflexivity.
Qed.

Lemma C4_non_member_reads_witness :
  GetBalances cx0 db1 rqOutsider = JSON 403 (Error "not a member of the group").
Proof.
  apply (C4_non_member_reads cx0 db1 rqOutsider 30%N 1%N); vm_compute; reflexivity.
Defined.

(** C4 as stated fails for the group-detail read: user 30 is not a member of
    group 1 and [GetGroup] answers 200 with the members and the expenses of
    the group. *)
Lemma C4_counterexample :
  sql_exists_member db1 1 30 = false
  /\ GetGroup cx0 db1 rqOutsider =
     JSON 200
       (DetailsJSON
          (mkGroupDetails 1 "trip" 10 0
             [mkGroupMember 10 "a@x.io" "a"; mkGroupMember 20 "b@x.io" "b"]
             [mkGroupExpense 100 "dinner" (New 100 0) 10 5])
          false)
  /\ kindOf (GetGroup cx0 db1 rqOutsider) <> Some Forbidden.
Proof. repeat split; vm_compute; congruence. Qed.

(** C5, amended: [GetBalances] never signals NotFound; for a group that does
    not exist, and so has no membership rows, an authenticated caller gets
    Forbidden. *)
Theorem C5_missing_group cx db rq u g :
  principal rq = Some u -> param_id rq = Some g ->
  sql_group db g = [] -> membersReferToGroups db = true ->
  GetBalances cx db rq = JSON 403 (Error "not a member of the group")
  /\ kindOf (GetBalances cx db rq) = Some Forbidden
  /\ forall cx' db' rq', kindOf (GetBalances cx' db' rq') <> Some NotFound.
Proof.
  intros Hu Hg Hgrp Hfk.
  assert (Hmem : sql_exists_member db g u = false).
  { apply not_true_is_false. intros Hex.
    apply existsb_exists in Hex as [m [Hin Hm]].
    apply andb_true_iff in Hm as [Hmg _]. apply N.eqb_eq in Hmg.
    unfold membersReferToGroups in Hfk. rewrite forallb_forall in Hfk.
    apply Hfk, existsb_exists in Hin as [grp [Hin Hid]].
    assert (Hsel : In grp (sql_group db g)).
    { apply filter_In. split; [assumption|]. rewrite <- Hmg. assumption. }
    rewrite Hgrp in Hsel. contradiction. }
  rewrite (GetBalances_gate cx db rq u g Hu Hg Hmem).
  repeat split. intros cx' db' rq'.
  pose proof (GetBalances_never_404 cx' db' rq') as H404.
  unfold kindOf.
  repeat match goal with
         | |- context [if ?x =? ?y then _ else _] =>
             destruct (Z.eqb_spec x y); try congruence
         end.
Qed.

Lemma C5_missing_group_witness :
  GetBalances cx0 dbEmpty rq1 = JSON 403 (Error "not a member of the group")
  /\ kindOf (GetBalances cx0 dbEmpty rq1) = Some Forbidden
  /\ forall cx' db' rq', kindOf (GetBalances cx' db' rq') <> Some NotFound.
Proof.
  apply (C5_missing_group cx0 dbEmpty rq1 10%N 1%N); reflexivity.
Defined.

(** C5 as stated fails: in a database without groups, [GetBalances] for group
    1 signals Forbidden, not NotFound. *)
Lemma C5_counterexample :
  sql_group dbEmpty 1 = []
  /\ GetBalances cx0 dbEmpty rq1 = JSON 403 (Error "not a member of the group")
  /\ kindOf (GetBalances cx0 dbEmpty rq1) <> Some NotFound.
Proof. repeat split; vm_compute; congruence. Qed.

(** ** Adding a member *)

Section AddMemberFacts.

Variable isEmail : string -> bool.

Lemma AddMember_after_gate cx db rq u g email :
  principal rq = Some u -> param_id rq = Some g ->
  sql_exists_member db g u = true -> fails cx SCheckRequester = None ->
  json_body rq = Some email -> isEmail email = true ->
  AddMember isEmail cx db rq =
  let '(userID, exists_, err) := helpers.GetUserByEmail cx db email in
  if bool_decide (is_Some err) then (JSON 500 (Error "database error"), db) else
  if negb exists_ then (JSON 404 (Error "user not found with this email"), db) else
  let '(exists_, err) := helpers.IsGroupMember cx db g userID in
  if bool_decide (is_Some err) then (JSON 500 (Error "database error"), db) else
  if exists_ then (JSON 400 (Error "user already in group"), db) else
  match Exec cx SInsertMember (insert_member db g userID) with
  | inl _ => (JSON 500 (Error "failed to add member"), db)
  | inr db' => (JSON 200 (Message "member added"), db')
  end.
Proof.
  intros Hu Hg Hmem Hf Hbody Hvalid.
  unfold AddMember, ScanBool, QueryRow.
  rewrite Hu, Hg, Hf, Hmem, Hbody, Hvalid. cbn [negb orb].
  rewrite bool_decide_false by (intros [? ?]; discriminate). reflexivity.
Qed.

(** [GetUserByEmail] never returns an error. *)
Lemma GetUserByEmail_no_error cx db email :
  (helpers.GetUserByEmail cx db email).2 = None.
Proof.
  unfold helpers.GetUserByEmail.
  destruct (QueryRow cx SGetUserByEmail (sql_user_by_email db email));
    reflexivity.
Qed.

End AddMemberFacts.

(** C6, amended: [AddMember] checks its preconditions in order.  A requester
    who is not a member gets 403 whatever the rest of the request; then an
    email that resolves to no user gets 404; then a target who is already a
    member gets 400 with the reason "user already in group"; and when the
    insert of the membership row fails, for whatever reason, the answer is 500
    with the reason "failed to add member".  Only when the insert succeeds is
    the answer 200, with the row added.  No failure leaves a trace in the
    database. *)
Theorem C6_add_member_failures isEmail cx db rq u g :
  principal rq = Some u -> param_id rq = Some g ->
  (sql_exists_member db g u = false ->
   AddMember isEmail cx db rq = (JSON 403 (Error "not a member of the group"), db))
  /\ (forall email,
      sql_exists_member db g u = true -> fails cx SCheckRequester = None ->
      json_body rq = Some email -> isEmail email = true ->
      (sql_user_by_email db email = [] ->
       AddMember isEmail cx db rq =
       (JSON 404 (Error "user not found with this email"), db))
      /\ (forall target rest,
          sql_user_by_email db email = target :: rest ->
          fails cx SGetUserByEmail = None -> fails cx SIsGroupMember = None ->
          (sql_exists_member db g target = true ->
           AddMember isEmail cx db rq =
           (JSON 400 (Error "user already in group"), db))
          /\ (sql_exists_member db g target = false ->
              is_Some (fails cx SInsertMember) ->
              AddMember isEmail cx db rq =
              (JSON 500 (Error "failed to add member"), db))
          /\ (sql_exists_member db g target = false ->
              fails cx SInsertMember = None ->
              AddMember isEmail cx db rq =
              (JSON 200 (Message "member added"),
               mkDB (users db) (groups db)
                    (group_members db ++ [mkMember g target])
                    (expenses db) (expense_splits db) (settlements db))))).
Proof.
  intros Hu Hg. split.
  - intros Hmem. unfold AddMember, ScanBool, QueryRow. rewrite Hu, Hg, Hmem.
    destruct (fails cx SCheckRequester); cbn [negb]; [reflexivity|].
    rewrite orb_true_r. reflexivity.
  - intros email Hmem Hf Hbody Hvalid.
    rewrite (AddMember_after_gate isEmail cx db rq u g email) by assumption.
    unfold helpers.GetUserByEmail, helpers.IsGroupMember, ScanBool, QueryRow, Exec,
      insert_member.
    split.
    + intros ->. destruct (fails cx SGetUserByEmail); reflexivity.
    + intros target rest -> -> ->. cbn [negb].
      rewrite !bool_decide_false by (intros [? ?]; discriminate).
      repeat split.
      * intros ->. reflexivity.
      * intros -> [e ->]. reflexivity.
      * intros -> ->. reflexivity.
Qed.

Lemma C6_add_member_failures_witness :
  AddMember isEmail0 cx0 db1 rqOutsider =
  (JSON 403 (Error "not a member of the group"), db1).
Proof.
  apply (C6_add_member_failures isEmail0 cx0 db1 rqOutsider 30%N 1%N);
    vm_compute; reflexivity.
Defined.

(** C6 as stated fails.  Adding user 20, already a member of group 1, is
    answered 400, the status of a validation failure; and when the insert for
    user 30 fails because the row already exists, the answer is 500. *)
Lemma C6_counterexample :
  (AddMember isEmail0 cx0 db1 (rqAdd "b@x.io") =
     (JSON 400 (Error "user already in group"), db1)
   /\ kindOf (AddMember isEmail0 cx0 db1 (rqAdd "b@x.io")).1 <> Some Conflict)
  /\ (AddMember isEmail0 (failAt SInsertMember ErrUniqueViolation) db1
                (rqAdd "c@x.io") =
        (JSON 500 (Error "failed to add member"), db1)
      /\ kindOf (AddMember isEmail0 (failAt SInsertMember ErrUniqueViolation) db1
                           (rqAdd "c@x.io")).1 = Some Internal).
Proof. repeat split; vm_compute; congruence. Qed.

(** C7 fails on the code: when the read of the [users] table fails,
    [GetUserByEmail] reports no error and no user, and [AddMember] answers 404
    "user not found with this email". *)
Theorem C7_lookup_failure_swallowed isEmail cx db rq u g email e :
  principal rq = Some u -> param_id rq = Some g ->
  sql_exists_member db g u = true -> fails cx SCheckRequester = None ->
  json_body rq = Some email -> isEmail email = true ->
  fails cx SGetUserByEmail = Some e ->
  helpers.GetUserByEmail cx db email = (uuid.Nil, false, None)
  /\ AddMember isEmail cx db rq =
     (JSON 404 (Error "user not found with this email"), db).
Proof.
  intros Hu Hg Hmem Hf Hbody Hvalid Hfail.
  rewrite (AddMember_after_gate isEmail cx db rq u g email) by assumption.
  unfold helpers.GetUserByEmail, QueryRow. rewrite Hfail. split; reflexivity.
Qed.

Lemma C7_lookup_failure_swallowed_witness :
  helpers.GetUserByEmail (failAt SGetUserByEmail ErrConn) db1 "c@x.io" =
    (uuid.Nil, false, None)
  /\ AddMember isEmail0 (failAt SGetUserByEmail ErrConn) db1 (rqAdd "c@x.io") =
     (JSON 404 (Error "user not found with this email"), db1).
Proof.
  apply (C7_lookup_failure_swallowed isEmail0 (failAt SGetUserByEmail ErrConn) db1
           (rqAdd "c@x.io") 10%N 1%N "c@x.io" ErrConn);
    vm_compute; reflexivity.
Defined.

(** The user whose lookup failed above exists: on a sound connection the same
    request adds them. *)
Example add_member_sound_connection :
  sql_user_by_email db1 "c@x.io" = [30%N]
  /\ (AddMember isEmail0 cx0 db1 (rqAdd "c@x.io")).1 =
     JSON 200 (Message "member added").
Proof. split; vm_compute; reflexivity. Qed.

(** Other failed reads are answered with an error, though not as Internal:
    the membership checks with 403, the read of the group with 404. *)
Lemma failed_reads_not_internal isEmail cx db rq u g e :
  principal rq = Some u -> param_id rq = Some g ->
  (fails cx SCheckRequester = Some e ->
   AddMember isEmail cx db rq = (JSON 403 (Error "not a member of the group"), db))
  /\ (fails cx SIsGroupMember = Some e ->
      GetBalances cx db rq = JSON 403 (Error "not a member of the group"))
  /\ (fails cx SGroup = Some e ->
      GetGroup cx db rq = JSON 404 (Error "group not found")).
Proof.
  intros Hu Hg. repeat split; intros Hf.
  - unfold AddMember, ScanBool, QueryRow. rewrite Hu, Hg, Hf. reflexivity.
  - unfold GetBalances, helpers.IsGroupMember, ScanBool, QueryRow.
    rewrite Hu, Hg, Hf. reflexivity.
  - unfold GetGroup, QueryRow. rewrite Hu, Hg, Hf. reflexivity.
Qed.

(** * More of the code *)

(** ** The balance of one member *)

Section OneMember.

Implicit Types (m : gmap UUID Decimal) (k uid : UUID) (d : Decimal).

(** The balance of a user after a run of adjustments depends on the balance
    before and on the adjustments that name the user. *)
Lemma lookup_foldl_creditPayer m (rows : list (UUID * Decimal)) uid :
  option_Forall2
    (fun b' b =>
       den b' =
       (den b + qsum (map (fun r => if (r.1 =? uid)%N then den r.2 else 0%Qc) rows))%Qc)
    (foldl creditPayer m rows !! uid) (m !! uid).
Proof.
  revert m. induction rows as [|[k d] rows IH]; intros m; cbn [foldl map qsum fst snd].
  - destruct (m !! uid); constructor. ring.
  - specialize (IH (creditPayer m (k, d))).
    rewrite creditPayer_credit, lookup_credit in IH.
    rewrite creditPayer_credit.
    destruct (N.eqb_spec k uid) as [->|Hne].
    + rewrite decide_True in IH by reflexivity.
      destruct (m !! uid) as [b|]; cbn in IH.
      * inversion IH as [b' ? Hb' Heq1 Heq2|]; subst. constructor.
        rewrite Hb', den_Add. ring.
      * inversion IH. constructor.
    + rewrite decide_False in IH by assumption.
      destruct IH as [b' b Hb'|]; constructor. rewrite Hb'. ring.
Qed.

Lemma lookup_foldl_creditPayer_agree m m' (rows : list (UUID * Decimal)) uid :
  m !! uid = m' !! uid ->
  foldl creditPayer m rows !! uid = foldl creditPayer m' rows !! uid.
Proof.
  revert m m'. induction rows as [|[k d] rows IH]; intros m m' H; cbn [foldl].
  - assumption.
  - apply IH. rewrite !creditPayer_credit, !lookup_credit, H. reflexivity.
Qed.

Lemma qsum_adjustments uid es ss (ts : list (UUID * UUID * Decimal)) :
  qsum (map (fun r => if (r.1 =? uid)%N then den r.2 else 0%Qc)
            (adjustments es ss ts)) =
  (qsum (map den (map snd (List.filter (fun r => (r.1 =? uid)%N) es)))
   - qsum (map den (map snd (List.filter (fun r => (r.1 =? uid)%N) ss)))
   - qsum (map den (map snd (List.filter (fun r => (r.1.1 =? uid)%N) ts)))
   + qsum (map den (map snd (List.filter (fun r => (r.1.2 =? uid)%N) ts))))%Qc.
Proof.
  unfold adjustments. rewrite !map_app, !qsum_app.
  rewrite !(map_map snd den), !qsum_map_filter.
  assert (Hs : forall l : list (UUID * Decimal),
             qsum (map (fun r => if (r.1 =? uid)%N then den r.2 else 0%Qc)
                       (map (fun r => (r.1, Neg r.2)) l)) =
             (- qsum (map (fun x => if (x.1 =? uid)%N then den x.2 else 0%Qc) l))%Qc).
  { induction l as [|[k d] l IH]; cbn [map qsum fst snd]; [ring|].
    rewrite IH. destruct (k =? uid)%N; rewrite ?den_Neg; ring. }
  assert (Ht : forall l : list (UUID * UUID * Decimal),
             qsum (map (fun r => if (r.1 =? uid)%N then den r.2 else 0%Qc)
                       (flat_map (fun r => [(r.1.1, Neg r.2); (r.1.2, r.2)]) l)) =
             (- qsum (map (fun x => if (x.1.1 =? uid)%N then den x.2 else 0%Qc) l)
              + qsum (map (fun x => if (x.1.2 =? uid)%N then den x.2 else 0%Qc) l))%Qc).
  { induction l as [|[[f t] d] l IH]; cbn [map flat_map app qsum fst snd]; [ring|].
    rewrite IH. destruct (f =? uid)%N, (t =? uid)%N; rewrite ?den_Neg; ring. }
  rewrite Hs, Ht. ring.
Qed.

Lemma den_netOf db g uid :
  den (netOf db g uid) =
  (qsum (map den (paidTotals db g uid)) - qsum (map den (shares db g uid))
   - qsum (map den (sentAmounts db g uid))
   + qsum (map den (receivedAmounts db g uid)))%Qc.
Proof.
  unfold netOf. rewrite den_Add, !den_Sub, !den_sumOf. reflexivity.
Qed.

Lemma balancesOfGroup_member db g uid :
  sql_exists_member db g uid = true ->
  exists bal, balancesOfGroup db g !! uid = Some bal
              /\ Equal bal (netOf db g uid) = true.
Proof.
  intros Hmem. unfold balancesOfGroup. rewrite computeBalances_adjustments.
  pose proof (lookup_foldl_creditPayer
                (foldl (fun (members : gmap UUID Decimal) u => <[u := Zero]> members)
                       ∅ (sql_members db g))
                (adjustments (sql_expenses db g) (sql_splits db g)
                             (sql_settlements db g)) uid) as H.
  rewrite lookup_initMembers_db, Hmem in H.
  inversion H as [bal ? Hbal Heq1 Heq2|]; subst.
  exists bal. split; [reflexivity|].
  apply Equal_den. rewrite Hbal, den_Zero, qsum_adjustments, den_netOf.
  unfold paidTotals, shares, sentAmounts, receivedAmounts. ring.
Qed.

End OneMember.

(** X1: in every answer 200 of [GetBalances], the balance of a member is what
    the member paid for expenses of the group, minus the shares of the member,
    minus what the member sent in settlements, plus what the member
    received. *)
Theorem balance_of_member cx db rq g bs uid :
  param_id rq = Some g ->
  GetBalances cx db rq = JSON 200 (BalancesJSON bs) ->
  sql_exists_member db g uid = true ->
  exists bal, balanceOf bs uid = Some bal /\ Equal bal (netOf db g uid) = true.
Proof.
  intros Hg Hok Hmem.
  destruct (GetBalances_inv cx db rq) as (u & g' & _ & Hg' & _ & Heq).
  { rewrite Hok. reflexivity. }
  rewrite Hg in Hg'. injection Hg' as <-.
  rewrite Hok in Heq. injection Heq as ->.
  rewrite balanceOf_toSlice. apply balancesOfGroup_member, Hmem.
Qed.

Lemma balance_of_member_witness :
  exists bal,
    balanceOf [mkBalance 10 (New 5000 (-2)); mkBalance 20 (New (-50) 0)] 20%N
    = Some bal
    /\ Equal bal (netOf db1 1 20) = true.
Proof.
  apply (balance_of_member cx0 db1 rq1 1%N); vm_compute; reflexivity.
Defined.

(** ** Zero sum with settlements *)

Lemma mapTotal_applySettlement_all (rows : list (UUID * UUID * Decimal))
    (m : gmap UUID Decimal) :
  Forall (fun r => r.1.1 ∈ dom m /\ r.1.2 ∈ dom m) rows ->
  mapTotal (foldl applySettlement m rows) = mapTotal m.
Proof.
  revert m. induction rows as [|[[f t] d] rows IH]; intros m Hall; cbn [foldl].
  - reflexivity.
  - inversion Hall as [|? ? [Hf Ht] Hrest]; subst. cbn [fst snd] in Hf, Ht.
    rewrite IH.
    + apply mapTotal_applySettlement; apply elem_of_dom; assumption.
    + rewrite dom_applySettlement. assumption.
Qed.

(** X2: when the splits of every expense of the group add up to its total and
    every payer, split participant, sender and receiver is a member, the
    balances that [GetBalances] returns add up to zero, settlements
    included. *)
Theorem zero_sum_with_settlements cx db rq g bs :
  param_id rq = Some g ->
  GetBalances cx db rq = JSON 200 (BalancesJSON bs) ->
  splitsBalanced db g = true ->
  partiesAreMembers db g = true ->
  settlersAreMembers db g = true ->
  IsZero (sumBalances bs) = true.
Proof.
  intros Hg Hok Hbal Hparties Hsett.
  destruct (GetBalances_inv cx db rq) as (u & g' & _ & Hg' & _ & Heq).
  { rewrite Hok. reflexivity. }
  rewrite Hg in Hg'. injection Hg' as <-.
  rewrite Hok in Heq. injection Heq as ->.
  apply IsZero_den. rewrite den_sumBalances_toSlice.
  unfold balancesOfGroup, computeBalances.
  apply andb_true_iff in Hparties as [Hpay Hsplit].
  rewrite mapTotal_applySettlement_all.
  - rewrite mapTotal_debitSplit_all.
    2:{ rewrite (foldl_credit_dom creditPayer) by apply dom_creditPayer.
        apply members_Forall, Hsplit. }
    rewrite mapTotal_creditPayer_all by apply members_Forall, Hpay.
    rewrite initMembers_total, (splitsBalanced_sums db g Hbal). ring.
  - rewrite (foldl_credit_dom debitSplit) by apply dom_debitSplit.
    rewrite (foldl_credit_dom creditPayer) by apply dom_creditPayer.
    unfold settlersAreMembers in Hsett. rewrite forallb_forall in Hsett.
    apply Forall_forall. intros r Hr. apply list_elem_of_In, Hsett in Hr.
    apply andb_true_iff in Hr as [Hf Ht].
    split; apply elem_of_dom; rewrite lookup_initMembers_db;
      [rewrite Hf|rewrite Ht]; eauto.
Qed.

Lemma zero_sum_with_settlements_witness :
  IsZero (sumBalances [mkBalance 10 (New 10000 (-2)); mkBalance 20 (New (-100) 0)])
  = true.
Proof.
  apply (zero_sum_with_settlements cx0
           (addSettlement db1 (mkSettlement 1 20 10 (New 50 0))) rq1 1%N);
    vm_compute; reflexivity.
Defined.

(** ** What [GetBalances] answers *)

(** X3: [GetBalances] answers 200 with balances, or 400, 401, 403 or 500 with
    an error message and no balance. *)
Theorem GetBalances_answers cx db rq :
  (exists bs, GetBalances cx db rq = JSON 200 (BalancesJSON bs))
  \/ (exists st msg,
        GetBalances cx db rq = JSON st (Error msg)
        /\ (st = 400 \/ st = 401 \/ st = 403 \/ st = 500)).
Proof.
  unfold GetBalances, helpers.IsGroupMember, ScanBool, QueryRow, Query, scanRows.
  repeat match goal with
         | |- context [principal rq] => destruct (principal rq)
         | |- context [param_id rq] => destruct (param_id rq)
         | |- context [fails cx ?s] => destruct (fails cx s)
         | |- context [sql_exists_member ?a ?b ?c] =>
             destruct (sql_exists_member a b c)
         | |- context [scanFrom ?a ?b ?c ?d ?e] => destruct (scanFrom a b c d e)
         end; cbn [bool_decide negb orb];
    try (left; eexists; reflexivity);
    right; do 2 eexists; (split; [reflexivity|]); lia.
Qed.

Lemma scanFrom_bad {A St} i n (body : St -> A -> St) rows s :
  (n <= i < n + length rows)%nat -> scanFrom (Some i) n body rows s = None.
Proof.
  revert n s. induction rows as [|r rows IH]; intros n s Hi; cbn in *; [lia|].
  destruct (decide (Some i = Some n)) as [|Hne]; [reflexivity|].
  apply IH. assert (i <> n) by congruence. lia.
Qed.

Lemma scanFrom_beyond {A St} i n (body : St -> A -> St) rows s :
  (i < n \/ n + length rows <= i)%nat ->
  scanFrom (Some i) n body rows s = Some (foldl body s rows).
Proof.
  revert n s. induction rows as [|r rows IH]; intros n s Hi; cbn in *;
    [reflexivity|].
  destruct (decide (Some i = Some n)) as [[= ->]|Hne]; [lia|].
  apply IH. lia.
Qed.

(** X4: when a row of one of the four result sets of [GetBalances] fails to
    scan, a member gets 500 and no balance, whatever was folded before; a
    failing row number beyond the end of the result set changes nothing. *)
Theorem GetBalances_scan_failure cx db rq u g site rows i :
  principal rq = Some u -> param_id rq = Some g ->
  sql_exists_member db g u = true -> fails cx SIsGroupMember = None ->
  (site = SMembers /\ rows = length (sql_members db g)
   \/ site = SExpenses /\ rows = length (sql_expenses db g)
   \/ site = SSplits /\ rows = length (sql_splits db g)
   \/ site = SSettlements /\ rows = length (sql_settlements db g)) ->
  bad_row cx site = Some i ->
  ((i < rows)%nat ->
   exists msg, GetBalances cx db rq = JSON 500 (Error msg))
  /\ ((rows <= i)%nat ->
      (forall s, fails cx s = None) ->
      (forall s, s <> site -> bad_row cx s = None) ->
      GetBalances cx db rq =
      JSON 200 (BalancesJSON (toSlice (balancesOfGroup db g)))).
Proof.
  intros Hu Hg Hmem Hf Hsite Hbad.
  unfold GetBalances, helpers.IsGroupMember, ScanBool, QueryRow, Query, scanRows.
  rewrite Hu, Hg, Hf, Hmem. cbn [negb orb].
  rewrite bool_decide_false by (intros [? ?]; discriminate).
  split.
  - intros Hi.
    destruct Hsite as [[-> ->]|[[-> ->]|[[-> ->]|[-> ->]]]];
      rewrite Hbad;
      repeat match goal with
             | |- context [fails cx ?s] => destruct (fails cx s)
             | |- context [scanFrom (Some i) 0 ?c ?d ?e] =>
                 rewrite (scanFrom_bad i 0 c d e) by lia
             | |- context [scanFrom ?a ?b ?c ?d ?e] => destruct (scanFrom a b c d e)
             end; eexists; reflexivity.
  - intros Hi Hfails Hothers. rewrite !Hfails.
    destruct Hsite as [[-> ->]|[[-> ->]|[[-> ->]|[-> ->]]]];
      rewrite Hbad, !Hothers by discriminate;
      repeat (first [rewrite scanFrom_None
                    |rewrite (scanFrom_beyond i 0) by lia]; cbv beta iota);
      reflexivity.
Qed.

Lemma GetBalances_scan_failure_witness :
  exists msg,
    GetBalances (mkConn (fun _ => None)
                        (fun s => if decide (s = SSplits) then Some 1%nat else None)
                        7%N 0) db1 rq1 = JSON 500 (Error msg).
Proof.
  apply (GetBalances_scan_failure
           (mkConn (fun _ => None)
                   (fun s => if decide (s = SSplits) then Some 1%nat else None)
                   7%N 0) db1 rq1 10%N 1%N SSplits 2%nat 1%nat);
    try (vm_compute; reflexivity).
  all: try lia.
  all: right; right; left; split; reflexivity.
Defined.

(** ** Groups do not mix *)

Section OtherGroups.

Lemma filter_app_none {A} (P : A -> bool) (l extra : list A) :
  forallb (fun x => negb (P x)) extra = true ->
  List.filter P (l ++ extra) = List.filter P l.
Proof.
  intros H. rewrite List.filter_app.
  replace (List.filter P extra) with (@nil A); [apply app_nil_r|].
  induction extra as [|x extra IH]; [reflexivity|].
  cbn in *. apply andb_true_iff in H as [Hx Hrest].
  destruct (P x); [discriminate|]. apply IH, Hrest.
Qed.

Lemma sql_exists_member_addRows db g u ms es ss ts :
  forallb (fun m => negb (gm_group_id m =? g)%N) ms = true ->
  sql_exists_member (addRows db ms es ss ts) g u = sql_exists_member db g u.
Proof.
  intros H. unfold sql_exists_member. cbn [addRows group_members].
  rewrite existsb_app.
  replace (existsb _ ms) with false; [apply orb_false_r|].
  symmetry. apply not_true_is_false. intros Hex.
  apply existsb_exists in Hex as [m [Hin Hm]].
  rewrite forallb_forall in H. apply H in Hin.
  apply andb_true_iff in Hm as [Hm _]. rewrite Hm in Hin. discriminate.
Qed.

Lemma filter_none {A} (P : A -> bool) (l : list A) :
  forallb (fun x => negb (P x)) l = true -> List.filter P l = [].
Proof.
  intros H. induction l as [|x l IH]; [reflexivity|].
  cbn in *. apply andb_true_iff in H as [Hx Hrest].
  destruct (P x); [discriminate|]. apply IH, Hrest.
Qed.

Lemma queries_addRows db g ms es ss ts :
  rowsOfOtherGroups db g ms es ss ts = true ->
  sql_members (addRows db ms es ss ts) g = sql_members db g
  /\ sql_expenses (addRows db ms es ss ts) g = sql_expenses db g
  /\ sql_splits (addRows db ms es ss ts) g = sql_splits db g
  /\ sql_settlements (addRows db ms es ss ts) g = sql_settlements db g.
Proof.
  unfold rowsOfOtherGroups. intros H.
  apply andb_true_iff in H as [H Hts]. apply andb_true_iff in H as [H Hss].
  apply andb_true_iff in H as [Hms Hes].
  assert (Hes' : forall s : ExpenseSplit,
             List.filter (fun e => (es_expense_id s =? e_id e)%N
                                   && (e_group_id e =? g)%N) es = []).
  { intros s. apply filter_none. rewrite forallb_forall in *. intros e He.
    specialize (Hes e He). destruct (e_group_id e =? g)%N; [discriminate|].
    rewrite andb_false_r. reflexivity. }
  repeat split.
  - unfold sql_members. cbn [addRows group_members].
    rewrite filter_app_none by assumption. reflexivity.
  - unfold sql_expenses. cbn [addRows expenses].
    rewrite filter_app_none by assumption. reflexivity.
  - unfold sql_splits. cbn [addRows expenses expense_splits].
    rewrite flat_map_app.
    replace (flat_map _ ss) with (@nil (UUID * Decimal)).
    + rewrite app_nil_r. apply flat_map_ext. intros s.
      rewrite List.filter_app, Hes', app_nil_r. reflexivity.
    + symmetry. clear -Hss Hes'. induction ss as [|s ss IH]; [reflexivity|].
      cbn [flat_map forallb] in *. apply andb_true_iff in Hss as [Hs Hrest].
      rewrite (IH Hrest), app_nil_r.
      rewrite List.filter_app, Hes', app_nil_r.
      rewrite (filter_none _ _ Hs). reflexivity.
  - unfold sql_settlements. cbn [addRows settlements].
    rewrite filter_app_none by assumption. reflexivity.
Qed.

End OtherGroups.

(** X5: rows of other groups do not reach the balances of a group: after any
    members, expenses and settlements of other groups, and splits of expenses
    of other groups, are added, [GetBalances] answers a request about the
    group as before. *)
Theorem GetBalances_other_groups cx db rq g ms es ss ts :
  param_id rq = Some g ->
  rowsOfOtherGroups db g ms es ss ts = true ->
  GetBalances cx (addRows db ms es ss ts) rq = GetBalances cx db rq.
Proof.
  intros Hg Hrows.
  destruct (queries_addRows db g ms es ss ts Hrows) as (Hm & He & Hs & Ht).
  unfold rowsOfOtherGroups in Hrows.
  apply andb_true_iff in Hrows as [H _]. apply andb_true_iff in H as [H _].
  apply andb_true_iff in H as [Hms _].
  unfold GetBalances, helpers.IsGroupMember. rewrite Hg.
  destruct (principal rq) as [u|]; [|reflexivity].
  rewrite (sql_exists_member_addRows db g u ms es ss ts Hms), Hm, He, Hs, Ht.
  reflexivity.
Qed.

Lemma GetBalances_other_groups_witness :
  GetBalances cx0
    (addRows db1 [mkMember 2 30] [mkExpense 101 2 "rent" (New 900 0) 30 6]
             [mkSplit 101 30 (New 900 0)] [mkSettlement 2 30 10 (New 5 0)]) rq1 =
  GetBalances cx0 db1 rq1.
Proof.
  apply (GetBalances_other_groups cx0 db1 rq1 1%N); vm_compute; reflexivity.
Defined.

(** ** What [AddMember] writes *)

Section AddMemberEffect.

Variable isEmail : string -> bool.

Lemma sql_user_by_email_head db email target rest :
  sql_user_by_email db email = target :: rest ->
  exists usr, In usr (users db) /\ u_email usr = email /\ u_id usr = target.
Proof.
  unfold sql_user_by_email. intros H.
  assert (Hin : In target (map u_id (List.filter (fun u => String.eqb (u_email u) email)
                                                 (users db)))).
  { rewrite H. left. reflexivity. }
  apply in_map_iff in Hin as [usr [Hid Hin]].
  apply filter_In in Hin as [Hin Heq]. apply String.eqb_eq in Heq.
  exists usr. auto.
Qed.

Lemma AddMember_inv cx db rq :
  status (AddMember isEmail cx db rq).1 = 200 ->
  exists u g email target rest,
    principal rq = Some u /\ param_id rq = Some g /\ json_body rq = Some email
    /\ isEmail email = true
    /\ sql_exists_member db g u = true
    /\ sql_user_by_email db email = target :: rest
    /\ sql_exists_member db g target = false
    /\ AddMember isEmail cx db rq =
       (JSON 200 (Message "member added"),
        mkDB (users db) (groups db) (group_members db ++ [mkMember g target])
             (expenses db) (expense_splits db) (settlements db)).
Proof.
  unfold AddMember, helpers.GetUserByEmail, helpers.IsGroupMember, ScanBool,
    QueryRow, Exec, insert_member.
  destruct (principal rq) as [u|]; [|discriminate].
  destruct (param_id rq) as [g|]; [|discriminate].
  destruct (fails cx SCheckRequester); [discriminate|].
  destruct (sql_exists_member db g u) eqn:Hreq; [|discriminate].
  cbn [negb orb]. rewrite bool_decide_false by (intros [? ?]; discriminate).
  destruct (json_body rq) as [email|]; [|discriminate].
  destruct (isEmail email) eqn:Hvalid; [|discriminate]. cbn [negb].
  destruct (fails cx SGetUserByEmail); [discriminate|].
  destruct (sql_user_by_email db email) as [|target rest] eqn:Hlook; [discriminate|].
  cbn [negb]. rewrite bool_decide_false by (intros [? ?]; discriminate).
  destruct (fails cx SIsGroupMember); [discriminate|].
  rewrite bool_decide_false by (intros [? ?]; discriminate).
  destruct (sql_exists_member db g target) eqn:Htarget; [discriminate|].
  destruct (fails cx SInsertMember); [discriminate|].
  intros _. exists u, g, email, target, rest.
  repeat split; try reflexivity; assumption.
Qed.

End AddMemberEffect.

Lemma AddMember_unchanged isEmail cx db rq :
  status (AddMember isEmail cx db rq).1 <> 200 ->
  (AddMember isEmail cx db rq).2 = db.
Proof.
  unfold AddMember, helpers.GetUserByEmail, helpers.IsGroupMember, ScanBool,
    QueryRow, Exec, insert_member.
  repeat match goal with
         | |- context [principal rq] => destruct (principal rq)
         | |- context [param_id rq] => destruct (param_id rq)
         | |- context [json_body rq] => destruct (json_body rq)
         | |- context [fails cx ?s] => destruct (fails cx s)
         | |- context [sql_exists_member ?a ?b ?c] =>
             destruct (sql_exists_member a b c)
         | |- context [isEmail ?e] => destruct (isEmail e)
         | |- context [sql_user_by_email ?a ?b] =>
             destruct (sql_user_by_email a b)
         end; cbn; intros H; try reflexivity; contradiction.
Qed.

(** X6: [AddMember] changes the database only when it answers 200.  Then the
    requester is a member of the group, the email is that of a user who was
    not a member, and the one change is the membership row of that user. *)
Theorem AddMember_effect isEmail cx db rq :
  (status (AddMember isEmail cx db rq).1 <> 200 ->
   (AddMember isEmail cx db rq).2 = db)
  /\ (status (AddMember isEmail cx db rq).1 = 200 ->
      exists u g email target,
        principal rq = Some u /\ param_id rq = Some g
        /\ json_body rq = Some email
        /\ sql_exists_member db g u = true
        /\ (exists usr, In usr (users db) /\ u_email usr = email
                        /\ u_id usr = target)
        /\ sql_exists_member db g target = false
        /\ (AddMember isEmail cx db rq).2 =
           mkDB (users db) (groups db) (group_members db ++ [mkMember g target])
                (expenses db) (expense_splits db) (settlements db)).
Proof.
  split; [apply AddMember_unchanged|].
  intros H.
  destruct (AddMember_inv isEmail cx db rq H)
    as (u & g & email & target & rest & Hu & Hg & Hb & _ & Hreq & Hlook & Ht & Heq).
  exists u, g, email, target. rewrite Heq.
  repeat split; try assumption.
  apply (sql_user_by_email_head db email target rest Hlook).
Qed.

Lemma AddMember_effect_witness :
  (AddMember isEmail0 (failAt SIsGroupMember ErrConn) db1 (rqAdd "c@x.io")).2 = db1.
Proof.
  apply (AddMember_effect isEmail0 (failAt SIsGroupMember ErrConn) db1
           (rqAdd "c@x.io")).
  vm_compute. discriminate.
Defined.

(** X7: the same request a second time, after [AddMember] answered 200, is
    answered 400 "user already in group" and adds nothing, on every connection
    on which the three reads succeed. *)
Theorem AddMember_twice isEmail cx cx' db rq :
  status (AddMember isEmail cx db rq).1 = 200 ->
  fails cx' SCheckRequester = None -> fails cx' SGetUserByEmail = None ->
  fails cx' SIsGroupMember = None ->
  AddMember isEmail cx' (AddMember isEmail cx db rq).2 rq =
  (JSON 400 (Error "user already in group"), (AddMember isEmail cx db rq).2).
Proof.
  intros H Hf1 Hf2 Hf3.
  destruct (AddMember_inv isEmail cx db rq H)
    as (u & g & email & target & rest & Hu & Hg & Hb & Hvalid & Hreq & Hlook & Ht & Heq).
  rewrite Heq. cbn [snd].
  set (db' := mkDB (users db) (groups db) (group_members db ++ [mkMember g target])
                   (expenses db) (expense_splits db) (settlements db)).
  assert (Hreq' : sql_exists_member db' g u = true).
  { unfold db'. rewrite sql_exists_member_app, Hreq. reflexivity. }
  assert (Ht' : sql_exists_member db' g target = true).
  { unfold db'. rewrite sql_exists_member_app. cbn [gm_group_id gm_user_id].
    rewrite !N.eqb_refl. apply orb_true_r. }
  rewrite (AddMember_after_gate isEmail cx' db' rq u g email) by assumption.
  unfold helpers.GetUserByEmail, helpers.IsGroupMember, ScanBool, QueryRow.
  rewrite Hf2, Hf3.
  change (sql_user_by_email db' email) with (sql_user_by_email db email).
  rewrite Hlook, Ht'. cbn [negb].
  rewrite !bool_decide_false by (intros [? ?]; discriminate). reflexivity.
Qed.

Lemma AddMember_twice_witness :
  AddMember isEmail0 cx0 (AddMember isEmail0 cx0 db1 (rqAdd "c@x.io")).2
            (rqAdd "c@x.io") =
  (JSON 400 (Error "user already in group"),
   (AddMember isEmail0 cx0 db1 (rqAdd "c@x.io")).2).
Proof.
  apply (AddMember_twice isEmail0 cx0 cx0 db1 (rqAdd "c@x.io")); reflexivity.
Defined.

(** ** What the writes keep *)

Section Integrity.

Lemma membersUnique_add db g u :
  membersUnique db -> sql_exists_member db g u = false ->
  membersUnique
    (mkDB (users db) (groups db) (group_members db ++ [mkMember g u])
          (expenses db) (expense_splits db) (settlements db)).
Proof.
  unfold membersUnique. cbn [group_members]. intros Hnd Hnew.
  rewrite map_app. cbn [map gm_group_id gm_user_id].
  apply NoDup_app. split; [assumption|]. split.
  - intros p Hp Hin. apply list_elem_of_singleton in Hin. subst p.
    apply list_elem_of_In, in_map_iff in Hp as [m [Hm Hin]].
    injection Hm as Hg Hu.
    assert (sql_exists_member db g u = true); [|congruence].
    apply existsb_exists. exists m. split; [assumption|].
    rewrite Hg, Hu, !N.eqb_refl. reflexivity.
  - apply NoDup_singleton.
Qed.

Lemma membersReferToGroups_add db g u :
  membersReferToGroups db = true ->
  existsb (fun grp => (ID grp =? g)%N) (groups db) = true ->
  membersReferToGroups
    (mkDB (users db) (groups db) (group_members db ++ [mkMember g u])
          (expenses db) (expense_splits db) (settlements db)) = true.
Proof.
  unfold membersReferToGroups. cbn [groups group_members]. intros H Hg.
  rewrite forallb_app, H. cbn. rewrite Hg. reflexivity.
Qed.

Lemma member_group_exists db g u :
  membersReferToGroups db = true -> sql_exists_member db g u = true ->
  existsb (fun grp => (ID grp =? g)%N) (groups db) = true.
Proof.
  unfold membersReferToGroups. intros H Hmem.
  apply existsb_exists in Hmem as [m [Hin Hm]].
  apply andb_true_iff in Hm as [Hg _]. apply N.eqb_eq in Hg.
  rewrite forallb_forall in H. rewrite <- Hg. apply H, Hin.
Qed.

End Integrity.

(** X8: [AddMember] and [CreateGroup] keep the membership pairs distinct and
    every membership row on a group of the [groups] table; neither removes a
    group or a membership. *)
Theorem writes_keep_integrity isEmail cx db rq :
  membersUnique db -> membersReferToGroups db = true ->
  (membersUnique (AddMember isEmail cx db rq).2
   /\ membersReferToGroups (AddMember isEmail cx db rq).2 = true
   /\ groups (AddMember isEmail cx db rq).2 = groups db
   /\ (forall g u, sql_exists_member db g u = true ->
       sql_exists_member (AddMember isEmail cx db rq).2 g u = true))
  /\ (membersUnique (CreateGroup cx db rq).2
      /\ membersReferToGroups (CreateGroup cx db rq).2 = true
      /\ (forall grp, In grp (groups db) -> In grp (groups (CreateGroup cx db rq).2))
      /\ (forall g u, sql_exists_member db g u = true ->
          sql_exists_member (CreateGroup cx db rq).2 g u = true)).
Proof.
  intros Hnd Hfk. split.
  - destruct (Z.eq_dec (status (AddMember isEmail cx db rq).1) 200) as [H200|Hne].
    + destruct (AddMember_inv isEmail cx db rq H200)
        as (u & g & email & target & rest & _ & _ & _ & _ & Hreq & _ & Ht & Heq).
      rewrite Heq. cbn [snd]. repeat split.
      * apply membersUnique_add; assumption.
      * apply membersReferToGroups_add; [assumption|].
        apply (member_group_exists db g u); assumption.
      * intros g' u' Hm. rewrite sql_exists_member_app, Hm. reflexivity.
    + rewrite (AddMember_unchanged isEmail cx db rq Hne). auto.
  - unfold CreateGroup, Begin, Commit, Rollback, Exec, insert_group, insert_member.
    destruct (principal rq) as [u|]; cbn [snd]; auto.
    destruct (json_body rq) as [name|]; cbn [snd]; auto.
    destruct (validName name); cbn [negb snd]; auto.
    destruct (fails cx SBegin); cbn [snd]; auto.
    destruct (fails cx SInsertGroup); cbn [snd]; auto.
    cbn [ID]. destruct (fails cx SInsertCreator); cbn [snd]; auto.
    destruct (sql_exists_member _ _ _) eqn:Hdup; cbn [snd]; auto.
    destruct (fails cx SCommit); cbn [snd]; auto.
    cbn [users groups group_members expenses expense_splits settlements].
    set (grp := mkGroup (gen_id cx) name u (now cx)).
    set (dbg := mkDB (users db) (groups db ++ [grp]) (group_members db)
                     (expenses db) (expense_splits db) (settlements db)) in *.
    repeat split.
    + apply (membersUnique_add dbg (gen_id cx) u); assumption.
    + unfold membersReferToGroups in *. cbn [groups group_members].
      rewrite forallb_app. apply andb_true_iff. split.
      * rewrite forallb_forall in *. intros m Hm. rewrite existsb_app.
        rewrite (Hfk m Hm). reflexivity.
      * cbn. rewrite existsb_app. cbn. rewrite N.eqb_refl.
        rewrite !orb_true_r. reflexivity.
    + intros g0 Hin. cbn [groups]. apply in_or_app. left. assumption.
    + intros g' u' Hm.
      pose proof (sql_exists_member_app dbg g' u' (mkMember (gen_id cx) u)) as Happ.
      cbn [dbg users groups group_members expenses expense_splits settlements]
        in Happ.
      rewrite Happ. apply orb_true_iff. left. exact Hm.
Qed.

Lemma writes_keep_integrity_witness :
  membersUnique (AddMember isEmail0 cx0 db1 (rqAdd "c@x.io")).2
  /\ membersReferToGroups (AddMember isEmail0 cx0 db1 (rqAdd "c@x.io")).2 = true
  /\ groups (AddMember isEmail0 cx0 db1 (rqAdd "c@x.io")).2 = groups db1
  /\ (forall g u, sql_exists_member db1 g u = true ->
      sql_exists_member (AddMember isEmail0 cx0 db1 (rqAdd "c@x.io")).2 g u = true).
Proof.
  apply (writes_keep_integrity isEmail0 cx0 db1 (rqAdd "c@x.io")).
  - unfold membersUnique. cbn. apply NoDup_cons. split.
    + intros Hin. apply list_elem_of_singleton in Hin. discriminate.
    + apply NoDup_singleton.
  - reflexivity.
Defined.

(** ** Newest first *)

Section Ordering.

Context {A : Type} (key : A -> Z).

Lemma insertBy_perm x l : insertBy key x l ≡ₚ x :: l.
Proof.
  induction l as [|y l IH]; cbn; [reflexivity|].
  destruct (key y <? key x); [reflexivity|].
  rewrite IH. apply perm_swap.
Qed.

Lemma foldr_insertBy_perm l : foldr (insertBy key) [] l ≡ₚ l.
Proof.
  induction l as [|x l IH]; cbn; [reflexivity|].
  rewrite insertBy_perm, IH. reflexivity.
Qed.

Lemma newestFirst_insertBy x l :
  newestFirst (map key l) -> newestFirst (map key (insertBy key x l)).
Proof.
  induction l as [|y l IH]; cbn [insertBy map newestFirst].
  - intros _. split; [constructor|exact I].
  - intros [Hy Hl]. destruct (Z.ltb_spec (key y) (key x)) as [Hlt|Hge];
      cbn [map newestFirst].
    + split; [|split; assumption].
      constructor; [lia|].
      eapply Forall_impl; [exact Hy|]. cbn. intros t Ht. lia.
    + split; [|apply IH, Hl].
      assert (Hp : map key (insertBy key x l) ≡ₚ key x :: map key l).
      { change (key x :: map key l) with (map key (x :: l)).
        apply Permutation_map, insertBy_perm. }
      rewrite Hp. constructor; assumption.
Qed.

Lemma newestFirst_foldr l : newestFirst (map key (foldr (insertBy key) [] l)).
Proof.
  induction l as [|x l IH]; cbn [foldr]; [exact I|].
  apply newestFirst_insertBy, IH.
Qed.

End Ordering.

Lemma insertDesc_insertBy e l : insertDesc e l = insertBy e_created_at e l.
Proof. induction l as [|x l IH]; cbn; [reflexivity|]. rewrite IH. reflexivity. Qed.

Lemma insertGroupDesc_insertBy g l : insertGroupDesc g l = insertBy CreatedAt g l.
Proof. induction l as [|x l IH]; cbn; [reflexivity|]. rewrite IH. reflexivity. Qed.

Lemma orderByCreatedAtDesc_insertBy l :
  orderByCreatedAtDesc l = foldr (insertBy e_created_at) [] l.
Proof.
  unfold orderByCreatedAtDesc. induction l as [|x l IH]; cbn; [reflexivity|].
  rewrite IH. apply insertDesc_insertBy.
Qed.

Lemma foldr_insertGroupDesc l :
  foldr insertGroupDesc [] l = foldr (insertBy CreatedAt) [] l.
Proof.
  induction l as [|x l IH]; cbn; [reflexivity|].
  rewrite IH. apply insertGroupDesc_insertBy.
Qed.

(** ** Reading a group *)

Lemma GetGroup_inv cx db rq :
  status (GetGroup cx db rq) = 200 ->
  exists u g grp rest,
    principal rq = Some u /\ param_id rq = Some g
    /\ sql_group db g = grp :: rest
    /\ GetGroup cx db rq =
       JSON 200
         (DetailsJSON
            (mkGroupDetails (ID grp) (Name grp) (CreatedBy grp) (CreatedAt grp)
                            (sql_group_members db g) (sql_group_expenses db g))
            (existsb (fun m => (MemberUserID m =? u)%N) (sql_group_members db g))).
Proof.
  unfold GetGroup, QueryRow, Query, scanRows.
  destruct (principal rq) as [u|]; [|discriminate].
  destruct (param_id rq) as [g|]; [|discriminate].
  destruct (fails cx SGroup); [discriminate|].
  destruct (sql_group db g) as [|grp rest] eqn:Hgrp; [discriminate|].
  destruct (fails cx SGroupMembers); [discriminate|].
  destruct (scanFrom _ _ _ _ _) as [ms|] eqn:H1; [|discriminate].
  apply scanFrom_Some in H1. rewrite foldl_snoc_id in H1. cbn [app] in H1. subst ms.
  destruct (fails cx SGroupExpenses); [discriminate|].
  destruct (scanFrom _ _ _ _ _) as [es|] eqn:H2; [|discriminate].
  apply scanFrom_Some in H2. rewrite foldl_snoc_id in H2. cbn [app] in H2. subst es.
  intros _. exists u, g, grp, rest. repeat split; try reflexivity. assumption.
Qed.

Lemma listed_iff db g u :
  existsb (fun m => (MemberUserID m =? u)%N) (sql_group_members db g) =
  sql_exists_member db g u && sql_user_exists db u.
Proof.
  apply eq_true_iff_eq. rewrite andb_true_iff. unfold sql_group_members,
    sql_exists_member, sql_user_exists. rewrite !existsb_exists. split.
  - intros [m [Hin Hm]]. apply in_flat_map in Hin as [usr [Husr Hin]].
    apply in_map_iff in Hin as [gm [<- Hgm]]. cbn [MemberUserID] in Hm.
    apply filter_In in Hgm as [Hgm Hcond].
    apply andb_true_iff in Hcond as [Hid Hgrp].
    apply N.eqb_eq in Hm, Hid. split.
    + exists gm. split; [assumption|]. rewrite Hgrp. apply N.eqb_eq. congruence.
    + exists usr. split; [assumption|]. apply N.eqb_eq, Hm.
  - intros [[gm [Hgm Hcond]] [usr [Husr Hid]]].
    apply andb_true_iff in Hcond as [Hgrp Hu]. apply N.eqb_eq in Hu, Hid.
    exists (mkGroupMember (u_id usr) (u_email usr) (u_username usr)). split.
    + apply in_flat_map. exists usr. split; [assumption|].
      apply in_map_iff. exists gm. split; [reflexivity|].
      apply filter_In. split; [assumption|]. rewrite Hgrp.
      rewrite andb_true_r. apply N.eqb_eq. congruence.
    + cbn [MemberUserID]. apply N.eqb_eq, Hid.
Qed.

(** X9: whenever [GetGroup] answers 200, the group it returns is a row of
    [groups] with the requested id, and the flag [is_member] is true exactly
    when the caller has a membership row for the group and a row in [users]:
    a member without a user row is told they are not a member. *)
Theorem GetGroup_is_member cx db rq u g d flag :
  principal rq = Some u -> param_id rq = Some g ->
  GetGroup cx db rq = JSON 200 (DetailsJSON d flag) ->
  flag = sql_exists_member db g u && sql_user_exists db u
  /\ DetailsID d = g
  /\ In (mkGroup (DetailsID d) (DetailsName d) (DetailsCreatedBy d)
                 (DetailsCreatedAt d)) (groups db).
Proof.
  intros Hu Hg Hok.
  destruct (GetGroup_inv cx db rq) as (u' & g' & grp & rest & Hu' & Hg' & Hgrp & Heq).
  { rewrite Hok. reflexivity. }
  rewrite Hu in Hu'. injection Hu' as <-. rewrite Hg in Hg'. injection Hg' as <-.
  rewrite Hok in Heq. injection Heq as -> ->.
  assert (Hin : In grp (sql_group db g)) by (rewrite Hgrp; left; reflexivity).
  apply filter_In in Hin as [Hin Hid]. apply N.eqb_eq in Hid.
  cbn [DetailsID DetailsName DetailsCreatedBy DetailsCreatedAt].
  repeat split.
  - apply listed_iff.
  - assumption.
  - destruct grp. assumption.
Qed.

Lemma GetGroup_is_member_witness :
  true = sql_exists_member db1 1 10 && sql_user_exists db1 10
  /\ 1%N = 1%N
  /\ In (mkGroup 1 "trip" 10 0) (groups db1).
Proof.
  apply (GetGroup_is_member cx0 db1 rq1 10%N 1%N
           (mkGroupDetails 1 "trip" 10 0
              [mkGroupMember 10 "a@x.io" "a"; mkGroupMember 20 "b@x.io" "b"]
              [mkGroupExpense 100 "dinner" (New 100 0) 10 5]));
    vm_compute; reflexivity.
Defined.

(** X19: the members [GetGroup] returns are the users of the [users] table
    that have a membership row for the group, with their id, email and
    username. *)
Theorem GetGroup_members cx db rq g d flag :
  param_id rq = Some g ->
  GetGroup cx db rq = JSON 200 (DetailsJSON d flag) ->
  forall m,
    In m (Members d) <->
    exists usr,
      In usr (users db) /\ sql_exists_member db g (u_id usr) = true
      /\ m = mkGroupMember (u_id usr) (u_email usr) (u_username usr).
Proof.
  intros Hg Hok m.
  destruct (GetGroup_inv cx db rq) as (u' & g' & grp & rest & Hu' & Hg' & Hgrp & Heq).
  { rewrite Hok. reflexivity. }
  rewrite Hg in Hg'. injection Hg' as <-.
  rewrite Hok in Heq. injection Heq as -> ->. cbn [Members].
  unfold sql_group_members, sql_exists_member.
  rewrite in_flat_map. split.
  - intros [usr [Husr Hin]]. apply in_map_iff in Hin as [gm [<- Hgm]].
    apply filter_In in Hgm as [Hgm Hcond].
    apply andb_true_iff in Hcond as [Hid Hgrp']. apply N.eqb_eq in Hid.
    exists usr. repeat split; try assumption.
    apply existsb_exists. exists gm. split; [assumption|].
    rewrite Hgrp'. apply N.eqb_eq. congruence.
  - intros [usr [Husr [Hmem ->]]].
    apply existsb_exists in Hmem as [gm [Hgm Hcond]].
    apply andb_true_iff in Hcond as [Hgrp' Hid]. apply N.eqb_eq in Hid.
    exists usr. split; [assumption|]. apply in_map_iff. exists gm.
    split; [reflexivity|]. apply filter_In. split; [assumption|].
    rewrite Hgrp', andb_true_r. apply N.eqb_eq. congruence.
Qed.

Lemma GetGroup_members_witness :
  In (mkGroupMember 20 "b@x.io" "b")
     [mkGroupMember 10 "a@x.io" "a"; mkGroupMember 20 "b@x.io" "b"] <->
  exists usr,
    In usr (users db1) /\ sql_exists_member db1 1 (u_id usr) = true
    /\ mkGroupMember 20 "b@x.io" "b"
       = mkGroupMember (u_id usr) (u_email usr) (u_username usr).
Proof.
  apply (GetGroup_members cx0 db1 rq1 1%N
           (mkGroupDetails 1 "trip" 10 0
              [mkGroupMember 10 "a@x.io" "a"; mkGroupMember 20 "b@x.io" "b"]
              [mkGroupExpense 100 "dinner" (New 100 0) 10 5]) true);
    vm_compute; reflexivity.
Defined.

(** X10: the expenses [GetGroup] returns are the expenses of the group, each
    once, newest first. *)
Theorem GetGroup_expenses cx db rq g d flag :
  param_id rq = Some g ->
  GetGroup cx db rq = JSON 200 (DetailsJSON d flag) ->
  Expenses d ≡ₚ
    map (fun e => mkGroupExpense (e_id e) (e_description e) (e_total_amount e)
                                 (e_paid_by e) (e_created_at e))
        (List.filter (fun e => (e_group_id e =? g)%N) (expenses db))
  /\ newestFirst (map ExpenseCreatedAt (Expenses d)).
Proof.
  intros Hg Hok.
  destruct (GetGroup_inv cx db rq) as (u' & g' & grp & rest & Hu' & Hg' & Hgrp & Heq).
  { rewrite Hok. reflexivity. }
  rewrite Hg in Hg'. injection Hg' as <-.
  rewrite Hok in Heq. injection Heq as -> ->. cbn [Expenses].
  unfold sql_group_expenses. rewrite orderByCreatedAtDesc_insertBy. split.
  - apply Permutation_map, foldr_insertBy_perm.
  - rewrite map_map. cbn [ExpenseCreatedAt]. apply newestFirst_foldr.
Qed.

Lemma GetGroup_expenses_witness :
  [mkGroupExpense 100 "dinner" (New 100 0) 10 5] ≡ₚ
    map (fun e => mkGroupExpense (e_id e) (e_description e) (e_total_amount e)
                                 (e_paid_by e) (e_created_at e))
        (List.filter (fun e => (e_group_id e =? 1)%N) (expenses db1))
  /\ newestFirst (map ExpenseCreatedAt [mkGroupExpense 100 "dinner" (New 100 0) 10 5]).
Proof.
  apply (GetGroup_expenses cx0 db1 rq1 1%N
           (mkGroupDetails 1 "trip" 10 0
              [mkGroupMember 10 "a@x.io" "a"; mkGroupMember 20 "b@x.io" "b"]
              [mkGroupExpense 100 "dinner" (New 100 0) 10 5]) true);
    vm_compute; reflexivity.
Defined.

(** X11: for an authenticated caller and an id that parses, [GetGroup] answers
    404 exactly when the read of the group fails or no group has the id; any
    other failure is a 500. *)
Theorem GetGroup_not_found cx db rq u g :
  principal rq = Some u -> param_id rq = Some g ->
  (status (GetGroup cx db rq) = 404 <->
   is_Some (fails cx SGroup) \/ sql_group db g = [])
  /\ (status (GetGroup cx db rq) = 200 \/ status (GetGroup cx db rq) = 404
      \/ status (GetGroup cx db rq) = 500).
Proof.
  intros Hu Hg. unfold GetGroup, QueryRow, Query, scanRows. rewrite Hu, Hg.
  destruct (fails cx SGroup) as [e|].
  { cbn. split; [|auto]. split; [eauto|reflexivity]. }
  destruct (sql_group db g) as [|grp rest].
  { cbn. split; [|auto]. split; [auto|reflexivity]. }
  assert (Hno : ~ (is_Some (@None error) \/ grp :: rest = [])).
  { intros [[? ?]|?]; discriminate. }
  repeat match goal with
         | |- context [fails cx ?s] => destruct (fails cx s)
         | |- context [scanFrom ?a ?b ?c ?d ?e] => destruct (scanFrom a b c d e)
         end; cbn [status]; (split; [split; [discriminate|contradiction]|auto]).
Qed.

Lemma GetGroup_not_found_witness :
  (status (GetGroup cx0 dbEmpty rq1) = 404 <->
   is_Some (fails cx0 SGroup) \/ sql_group dbEmpty 1 = [])
  /\ (status (GetGroup cx0 dbEmpty rq1) = 200 \/ status (GetGroup cx0 dbEmpty rq1) = 404
      \/ status (GetGroup cx0 dbEmpty rq1) = 500).
Proof.
  apply (GetGroup_not_found cx0 dbEmpty rq1 10%N 1%N); reflexivity.
Defined.

(** ** The groups of a user *)

Lemma GetUserGroups_inv cx db rq :
  groups_status (GetUserGroups cx db rq) = 200 ->
  exists u, principal rq = Some u
            /\ GetUserGroups cx db rq = JSONGroups 200 (GroupsJSON (sql_user_groups db u)).
Proof.
  unfold GetUserGroups.
  destruct (principal rq) as [u|]; [|discriminate].
  destruct (failsX cx SUserGroups); [discriminate|].
  destruct (scanFrom _ _ _ _ _) as [l|] eqn:H; [|discriminate].
  apply scanFrom_Some in H. rewrite foldl_snoc_id in H. cbn [app] in H. subst l.
  intros _. exists u. split; reflexivity.
Qed.

Lemma In_sql_user_groups db u grp :
  In grp (sql_user_groups db u) <->
  In grp (groups db) /\ sql_exists_member db (ID grp) u = true.
Proof.
  unfold sql_user_groups. rewrite foldr_insertGroupDesc.
  rewrite <- !list_elem_of_In, foldr_insertBy_perm, !list_elem_of_In.
  rewrite in_flat_map. unfold sql_exists_member. rewrite existsb_exists. split.
  - intros [g [Hg Hin]]. apply in_map_iff in Hin as [gm [<- Hgm]].
    apply filter_In in Hgm as [Hgm Hcond].
    apply andb_true_iff in Hcond as [Hid Hu]. apply N.eqb_eq in Hid.
    split; [assumption|]. exists gm. split; [assumption|].
    rewrite Hu, andb_true_r. apply N.eqb_eq. congruence.
  - intros [Hg [gm [Hgm Hcond]]].
    apply andb_true_iff in Hcond as [Hid Hu]. apply N.eqb_eq in Hid.
    exists grp. split; [assumption|]. apply in_map_iff. exists gm.
    split; [reflexivity|]. apply filter_In. split; [assumption|].
    rewrite Hu, andb_true_r. apply N.eqb_eq. congruence.
Qed.

(** X12: [GetUserGroups] answers 401 without a principal; when it answers 200
    it lists exactly the groups of the [groups] table that the principal has a
    membership row for, newest first. *)
Theorem GetUserGroups_lists cx db rq :
  (principal rq = None ->
   GetUserGroups cx db rq = JSONGroups 401 (GroupsError "unauthorized"))
  /\ (forall u l,
      principal rq = Some u ->
      GetUserGroups cx db rq = JSONGroups 200 (GroupsJSON l) ->
      (forall grp, In grp l <->
                   In grp (groups db) /\ sql_exists_member db (ID grp) u = true)
      /\ newestFirst (map CreatedAt l)).
Proof.
  split.
  - intros H. unfold GetUserGroups. rewrite H. reflexivity.
  - intros u l Hu Hok.
    destruct (GetUserGroups_inv cx db rq) as (u' & Hu' & Heq).
    { rewrite Hok. reflexivity. }
    rewrite Hu in Hu'. injection Hu' as <-.
    rewrite Hok in Heq. injection Heq as ->. split.
    + intros grp. apply In_sql_user_groups.
    + unfold sql_user_groups. rewrite foldr_insertGroupDesc.
      apply newestFirst_foldr.
Qed.

Lemma GetUserGroups_lists_witness :
  (forall grp, In grp [mkGroup 1 "trip" 10 0] <->
               In grp (groups db1) /\ sql_exists_member db1 (ID grp) 10 = true)
  /\ newestFirst (map CreatedAt [mkGroup 1 "trip" 10 0]).
Proof.
  apply (GetUserGroups_lists cxX0 db1 rq1); vm_compute; reflexivity.
Defined.

(** ** Users by email and by id *)

(** X13: [GetUserByEmail] reports a user exactly when the read succeeds and
    some user has the email; the id it returns is that of such a user, and
    [UserExists] on a connection that works confirms it. *)
Theorem GetUserByEmail_found cx cxx db email :
  ((helpers.GetUserByEmail cx db email).1.2 = true <->
   fails cx SGetUserByEmail = None
   /\ exists usr, In usr (users db) /\ u_email usr = email)
  /\ ((helpers.GetUserByEmail cx db email).1.2 = true ->
      (exists usr, In usr (users db) /\ u_email usr = email
                   /\ u_id usr = (helpers.GetUserByEmail cx db email).1.1)
      /\ (failsX cxx SUserExists = None ->
          UserExists cxx db (helpers.GetUserByEmail cx db email).1.1 = (true, None))).
Proof.
  unfold helpers.GetUserByEmail, QueryRow, UserExists.
  destruct (fails cx SGetUserByEmail) as [e|]; cbn [fst snd].
  { split; [|discriminate]. split; [discriminate|intros [H _]; discriminate H]. }
  destruct (sql_user_by_email db email) as [|target rest] eqn:Hlook; cbn [fst snd].
  - split; [|discriminate]. split; [discriminate|].
    intros [_ [usr [Hin Heq]]]. exfalso.
    assert (Hin' : In (u_id usr) (sql_user_by_email db email)).
    { unfold sql_user_by_email. apply in_map, filter_In. split; [assumption|].
      apply String.eqb_eq, Heq. }
    rewrite Hlook in Hin'. contradiction.
  - destruct (sql_user_by_email_head db email target rest Hlook)
      as (usr & Hin & Hemail & Hid).
    split.
    + split; [|reflexivity]. intros _. split; [reflexivity|]. eauto.
    + intros _. split; [eauto|]. intros ->.
      f_equal. unfold sql_user_exists. apply existsb_exists.
      exists usr. split; [assumption|]. apply N.eqb_eq, Hid.
Qed.

(** ** After a group is created *)

Section AfterCreate.

Lemma CreateGroup_inv cx db rq g db' :
  CreateGroup cx db rq = (JSON 201 (GroupJSON g), db') ->
  exists name,
    json_body rq = Some name /\ principal rq = Some (CreatedBy g)
    /\ g = mkGroup (gen_id cx) name (CreatedBy g) (now cx)
    /\ db' = mkDB (users db) (groups db ++ [g])
                  (group_members db ++ [mkMember (ID g) (CreatedBy g)])
                  (expenses db) (expense_splits db) (settlements db).
Proof.
  unfold CreateGroup, Begin, Commit, Rollback, Exec, insert_group, insert_member.
  destruct (principal rq) as [u|]; [|discriminate].
  destruct (json_body rq) as [name|]; [|discriminate].
  destruct (validName name); cbn [negb]; [|discriminate].
  destruct (fails cx SBegin); [discriminate|].
  destruct (fails cx SInsertGroup); [discriminate|].
  cbn [ID]. destruct (fails cx SInsertCreator); [discriminate|].
  destruct (sql_exists_member _ _ _); [discriminate|].
  destruct (fails cx SCommit); [discriminate|].
  cbn [users groups group_members expenses expense_splits settlements].
  intros [= <- <-]. exists name. cbn [CreatedBy ID]. repeat split; reflexivity.
Qed.

Lemma toSlice_singleton (uid : UUID) (d : Decimal) :
  toSlice (<[uid := d]> ∅) = [mkBalance uid d].
Proof.
  unfold toSlice. rewrite insert_empty, map_to_list_singleton. reflexivity.
Qed.

End AfterCreate.

(** X14: after [CreateGroup] answered 201 with a group whose id no earlier row
    mentions, the creator is its one member: [GetBalances] answers the creator
    with the single balance zero, and [GetUserGroups] lists the group for
    them. *)
Theorem CreateGroup_then_reads cx db rq g db' cx' cxx rq' :
  CreateGroup cx db rq = (JSON 201 (GroupJSON g), db') ->
  freshGroup db (ID g) = true ->
  healthy cx' ->
  failsX cxx SUserGroups = None -> bad_rowX cxx SUserGroups = None ->
  principal rq' = Some (CreatedBy g) -> param_id rq' = Some (ID g) ->
  GetBalances cx' db' rq' = JSON 200 (BalancesJSON [mkBalance (CreatedBy g) Zero])
  /\ exists l, GetUserGroups cxx db' rq' = JSONGroups 200 (GroupsJSON l) /\ In g l.
Proof.
  intros Hcreate Hfresh Hcx Hfx Hbx Hu Hg.
  destruct (CreateGroup_inv cx db rq g db' Hcreate) as (name & _ & _ & _ & ->).
  unfold freshGroup in Hfresh.
  apply andb_true_iff in Hfresh as [H Hts]. apply andb_true_iff in H as [H Hes].
  apply andb_true_iff in H as [Hgs Hms].
  set (dbg := mkDB (users db) (groups db ++ [g])
                   (group_members db ++ [mkMember (ID g) (CreatedBy g)])
                   (expenses db) (expense_splits db) (settlements db)).
  assert (Hmem : sql_exists_member dbg (ID g) (CreatedBy g) = true).
  { unfold sql_exists_member, dbg. cbn [group_members].
    rewrite existsb_app. cbn. rewrite !N.eqb_refl. apply orb_true_r. }
  split.
  - rewrite (GetBalances_healthy cx' dbg rq' (CreatedBy g) (ID g)) by assumption.
    do 2 f_equal. rewrite <- toSlice_singleton. f_equal.
    unfold balancesOfGroup.
    assert (Hm : sql_members dbg (ID g) = [CreatedBy g]).
    { unfold sql_members, dbg. cbn [group_members].
      rewrite List.filter_app, (filter_none _ _ Hms). cbn.
      rewrite N.eqb_refl. reflexivity. }
    assert (He : sql_expenses dbg (ID g) = []).
    { unfold sql_expenses, dbg. cbn [expenses].
      rewrite (filter_none _ _ Hes). reflexivity. }
    assert (Hs : sql_splits dbg (ID g) = []).
    { unfold sql_splits, dbg. cbn [expenses expense_splits].
      generalize (expense_splits db). intros l.
      induction l as [|s l IH]; [reflexivity|].
      cbn [flat_map]. rewrite IH, app_nil_r.
      rewrite filter_none; [reflexivity|].
      rewrite forallb_forall in Hes. apply forallb_forall. intros e He'.
      specialize (Hes e He').
      destruct (e_group_id e =? ID g)%N; [discriminate|].
      rewrite andb_false_r. reflexivity. }
    assert (Ht : sql_settlements dbg (ID g) = []).
    { unfold sql_settlements, dbg. cbn [settlements].
      rewrite (filter_none _ _ Hts). reflexivity. }
    rewrite Hm, He, Hs, Ht. reflexivity.
  - exists (sql_user_groups dbg (CreatedBy g)). split.
    + unfold GetUserGroups. rewrite Hu, Hfx, Hbx, scanFrom_None, foldl_snoc_id.
      reflexivity.
    + apply In_sql_user_groups. split; [|assumption].
      unfold dbg. cbn [groups]. apply in_or_app. right. left. reflexivity.
Qed.

Lemma CreateGroup_then_reads_witness :
  GetBalances cx0 (CreateGroup cx0 db1 rqCreate).2
              (mkRequest (Some 30%N) (Some 7%N) None) =
    JSON 200 (BalancesJSON [mkBalance 30 Zero])
  /\ exists l,
      GetUserGroups cxX0 (CreateGroup cx0 db1 rqCreate).2
                    (mkRequest (Some 30%N) (Some 7%N) None) =
        JSONGroups 200 (GroupsJSON l)
      /\ In (mkGroup 7 "flat" 30 0) l.
Proof.
  apply (CreateGroup_then_reads cx0 db1 rqCreate (mkGroup 7 "flat" 30 0)
           (CreateGroup cx0 db1 rqCreate).2 cx0 cxX0);
    try (vm_compute; reflexivity).
  split; intros s; reflexivity.
Defined.

(** ** A new member and the balances *)

(** X15: after [AddMember] answered 200, every balance [GetBalances] returned
    for the group before is returned unchanged, and the new member appears
    with the balance that the earlier expenses, splits and settlements naming
    them make. *)
Theorem AddMember_then_balances isEmail cx db rq g cx1 cx2 rq' bs bs' :
  status (AddMember isEmail cx db rq).1 = 200 ->
  param_id rq = Some g -> param_id rq' = Some g ->
  GetBalances cx1 db rq' = JSON 200 (BalancesJSON bs) ->
  GetBalances cx2 (AddMember isEmail cx db rq).2 rq' = JSON 200 (BalancesJSON bs') ->
  exists target bal,
    balanceOf bs target = None
    /\ balanceOf bs' target = Some bal
    /\ Equal bal (netOf db g target) = true
    /\ forall k, k <> target -> balanceOf bs' k = balanceOf bs k.
Proof.
  intros H200 Hg Hg' Hok Hok'.
  destruct (AddMember_inv isEmail cx db rq H200)
    as (u & g0 & email & target & rest & _ & Hg0 & _ & _ & _ & _ & Ht & Heq).
  rewrite Hg in Hg0. injection Hg0 as <-.
  rewrite Heq in Hok'. cbn [snd] in Hok'.
  set (db' := mkDB (users db) (groups db) (group_members db ++ [mkMember g target])
                   (expenses db) (expense_splits db) (settlements db)) in *.
  destruct (GetBalances_inv cx1 db rq') as (u1 & g1 & _ & Hg1 & _ & Heq1).
  { rewrite Hok. reflexivity. }
  rewrite Hg' in Hg1. injection Hg1 as <-.
  rewrite Hok in Heq1. injection Heq1 as ->.
  destruct (GetBalances_inv cx2 db' rq') as (u2 & g2 & _ & Hg2 & _ & Heq2).
  { rewrite Hok'. reflexivity. }
  rewrite Hg' in Hg2. injection Hg2 as <-.
  rewrite Hok' in Heq2. injection Heq2 as ->.
  assert (Hmem' : sql_exists_member db' g target = true).
  { unfold db'. rewrite sql_exists_member_app. cbn [gm_group_id gm_user_id].
    rewrite !N.eqb_refl. apply orb_true_r. }
  destruct (balancesOfGroup_member db' g target Hmem') as (bal & Hbal & Hnet).
  exists target, bal. rewrite !balanceOf_toSlice. repeat split.
  - destruct (balancesOfGroup db g !! target) eqn:Hl; [|reflexivity].
    assert (Hin : target ∈ dom (balancesOfGroup db g)) by (apply elem_of_dom; eauto).
    apply elem_of_dom_balancesOfGroup in Hin. congruence.
  - assumption.
  - exact Hnet.
  - intros k Hk. rewrite !balanceOf_toSlice.
    unfold balancesOfGroup. rewrite !computeBalances_adjustments.
    change (sql_expenses db' g) with (sql_expenses db g).
    change (sql_splits db' g) with (sql_splits db g).
    change (sql_settlements db' g) with (sql_settlements db g).
    apply lookup_foldl_creditPayer_agree.
    rewrite !lookup_initMembers_db. unfold db'.
    rewrite sql_exists_member_app. cbn [gm_group_id gm_user_id].
    rewrite N.eqb_refl. cbn [andb].
    destruct (N.eqb_spec target k) as [->|_]; [contradiction|].
    rewrite orb_false_r. reflexivity.
Qed.

Lemma AddMember_then_balances_witness :
  exists target bal,
    balanceOf [mkBalance 10 (New 50 0)] target = None
    /\ balanceOf [mkBalance 30 (New (-50) 0); mkBalance 10 (New 50 0)] target
       = Some bal
    /\ Equal bal (netOf db2 1 target) = true
    /\ forall k, k <> target ->
       balanceOf [mkBalance 30 (New (-50) 0); mkBalance 10 (New 50 0)] k =
       balanceOf [mkBalance 10 (New 50 0)] k.
Proof.
  apply (AddMember_then_balances isEmail0 cx0 db2 (rqAdd "c@x.io") 1%N cx0 cx0 rq1);
    vm_compute; reflexivity.
Defined.

(** ** Migration 000003 *)

Import migration.

Section MigrationFacts.

Lemma POSITION_nonneg c s : 0 <= POSITION c s.
Proof.
  induction s as [|a s IH]; cbn; [lia|].
  destruct (Ascii.eqb a c); [lia|].
  destruct (Z.eqb_spec (POSITION c s) 0); lia.
Qed.

Lemma POSITION_append c pre rest :
  ~ hasChar c pre ->
  POSITION c (String.append pre (String c rest)) = Z.of_nat (String.length pre) + 1.
Proof.
  induction pre as [|a pre IH]; intros Hno; simpl.
  - rewrite Ascii.eqb_refl. reflexivity.
  - cbn in Hno. destruct (Ascii.eqb_spec a c) as [->|_]; [tauto|].
    rewrite IH by tauto.
    destruct (Z.eqb_spec (Z.of_nat (String.length pre) + 1) 0); lia.
Qed.

Lemma POSITION_cases c s :
  (POSITION c s = 0 /\ ~ hasChar c s)
  \/ exists pre rest, s = String.append pre (String c rest) /\ ~ hasChar c pre.
Proof.
  induction s as [|a s IH]; cbn [POSITION hasChar].
  - left. tauto.
  - destruct (Ascii.eqb_spec a c) as [->|Hne].
    + right. exists EmptyString, s. split; [reflexivity|]. cbn. tauto.
    + destruct IH as [[H0 Hno]|(pre & rest & -> & Hno)].
      * left. rewrite H0. cbn. tauto.
      * right. exists (String a pre), rest. split; [reflexivity|].
        cbn. tauto.
Qed.

Lemma firstChars_append pre rest :
  firstChars (String.length pre) (String.append pre rest) = pre.
Proof.
  induction pre as [|a pre IH]; simpl.
  - destruct rest; reflexivity.
  - rewrite IH. reflexivity.
Qed.

Lemma usernameOf_append pre rest :
  ~ hasChar "@"%char pre ->
  usernameOf (String.append pre (String "@"%char rest)) = varchar50 pre.
Proof.
  intros Hno. unfold usernameOf, SUBSTRING1.
  rewrite POSITION_append by assumption.
  destruct (Z.ltb_spec (Z.of_nat (String.length pre) + 1 - 1) 0); [lia|].
  replace (Z.of_nat (String.length pre) + 1 - 1) with (Z.of_nat (String.length pre))
    by lia.
  rewrite Nat2Z.id, firstChars_append. reflexivity.
Qed.

Lemma append_inj_at pre pre' rest rest' :
  ~ hasChar "@"%char pre -> ~ hasChar "@"%char pre' ->
  String.append pre (String "@"%char rest) = String.append pre' (String "@"%char rest') ->
  pre = pre'.
Proof.
  revert pre'. induction pre as [|a pre IH]; intros [|a' pre'] Hno Hno' Heq;
    simpl in *.
  - reflexivity.
  - injection Heq as <- _. tauto.
  - injection Heq as -> _. tauto.
  - injection Heq as <- Heq. f_equal. apply (IH pre'); tauto.
Qed.

Lemma updateUsernames_down rows us :
  updateUsernames rows = Some us -> down_users us = rows.
Proof.
  revert us. induction rows as [|[id email] rows IH]; intros us; cbn.
  - intros [= <-]. reflexivity.
  - destruct (usernameOf email); [|discriminate].
    destruct (updateUsernames rows) as [done|]; [|discriminate].
    intros [= <-]. unfold down_users in *. cbn [map u_id u_email].
    rewrite (IH done eq_refl). reflexivity.
Qed.

Lemma updateUsernames_Forall2 rows us :
  updateUsernames rows = Some us ->
  Forall2 (fun r u => u_id u = ou_id r /\ u_email u = ou_email r
                      /\ usernameOf (ou_email r) = Some (u_username u)) rows us.
Proof.
  revert us. induction rows as [|[id email] rows IH]; intros us; cbn.
  - intros [= <-]. constructor.
  - destruct (usernameOf email) eqn:Hname; [|discriminate].
    destruct (updateUsernames rows) as [done|]; [|discriminate].
    intros [= <-]. constructor; [cbn; auto|]. apply IH. reflexivity.
Qed.

End MigrationFacts.

Lemma firstChars_all n s : (String.length s <= n)%nat -> firstChars n s = s.
Proof.
  revert n. induction s as [|a s IH]; intros [|n] Hlen; simpl in *;
    try reflexivity; try lia.
  rewrite IH by lia. reflexivity.
Qed.

Lemma dropChars_all n s : (String.length s <= n)%nat -> dropChars n s = EmptyString.
Proof.
  revert n. induction s as [|a s IH]; intros [|n] Hlen; simpl in *;
    try reflexivity; try lia.
  apply IH. lia.
Qed.

(** X16: the username the migration derives from an email is the text before
    its first at sign, cut after 50 characters; it exists exactly when the
    email has an at sign and that text has, after its first 50 characters,
    nothing but spaces. *)
Theorem usernameOf_spec email name :
  usernameOf email = Some name <->
  exists pre rest,
    email = String.append pre (String "@"%char rest)
    /\ ~ hasChar "@"%char pre
    /\ onlySpaces (dropChars 50 pre) = true
    /\ name = firstChars 50 pre
    /\ ((String.length pre <= 50)%nat -> name = pre).
Proof.
  split.
  - destruct (POSITION_cases "@"%char email) as [[H0 _]|(pre & rest & -> & Hno)].
    + unfold usernameOf, SUBSTRING1. rewrite H0. cbn. discriminate.
    + rewrite usernameOf_append by assumption. unfold varchar50.
      destruct (onlySpaces (dropChars 50 pre)) eqn:Hsp; [|discriminate].
      intros [= <-]. exists pre, rest.
      refine (conj eq_refl (conj Hno (conj Hsp (conj eq_refl _)))).
      intros Hlen. exact (firstChars_all 50 pre Hlen).
  - intros (pre & rest & -> & Hno & Hsp & -> & _).
    rewrite usernameOf_append by assumption. unfold varchar50.
    rewrite Hsp. reflexivity.
Qed.


Section MigrationFacts2.

Lemma usernameOf_Some email name :
  usernameOf email = Some name ->
  exists pre rest, email = String.append pre (String "@"%char rest)
                   /\ ~ hasChar "@"%char pre
                   /\ name = firstChars 50 pre.
Proof.
  destruct (POSITION_cases "@"%char email) as [[H0 _]|(pre & rest & -> & Hno)].
  - unfold usernameOf, SUBSTRING1. rewrite H0. cbn. discriminate.
  - rewrite usernameOf_append by assumption. unfold varchar50.
    destruct (onlySpaces (dropChars 50 pre)); [|discriminate].
    intros [= <-]. exists pre, rest. auto.
Qed.

Lemma updateUsernames_is_Some rows :
  is_Some (updateUsernames rows) <->
  Forall (fun r => is_Some (usernameOf (ou_email r))) rows.
Proof.
  induction rows as [|r rows IH]; cbn.
  - split; [constructor|eauto].
  - rewrite Forall_cons, <- IH.
    destruct (usernameOf (ou_email r)), (updateUsernames rows); split;
      try (intros [? ?]; discriminate); eauto.
    + intros [_ [? ?]]. discriminate.
    + intros [[? ?] _]. discriminate.
    + intros [[? ?] _]. discriminate.
Qed.

Lemma updateUsernames_names rows us :
  updateUsernames rows = Some us ->
  map (fun r => usernameOf (ou_email r)) rows = map Some (map u_username us).
Proof.
  revert us. induction rows as [|r rows IH]; intros us; cbn.
  - intros [= <-]. reflexivity.
  - destruct (usernameOf (ou_email r)) eqn:Hname; [|discriminate].
    destruct (updateUsernames rows) as [done|]; [|discriminate].
    intros [= <-]. cbn. rewrite (IH done eq_refl). reflexivity.
Qed.

Lemma NoDup_map_Some {A} (l : list A) : NoDup (map Some l) <-> NoDup l.
Proof.
  induction l as [|x l IH]; cbn.
  - split; constructor.
  - rewrite !NoDup_cons, IH.
    assert (Hin : Some x ∈ map Some l <-> x ∈ l).
    { rewrite !list_elem_of_In, in_map_iff. split.
      - intros [y [[= ->] Hy]]. assumption.
      - intros Hx. exists x. auto. }
    rewrite Hin. reflexivity.
Qed.

End MigrationFacts2.

(** X17: the up migration succeeds exactly when every email yields a username
    and no two emails yield the same one.  Then every user keeps id and
    email, has the first 50 characters of the text before the first at sign
    of the email as username, and the usernames are distinct. *)
Theorem up_users_result rows :
  (is_Some (up_users rows) <->
   Forall (fun r => is_Some (usernameOf (ou_email r))) rows
   /\ NoDup (map (fun r => usernameOf (ou_email r)) rows))
  /\ (forall us,
      up_users rows = Some us ->
      Forall2 (fun r u =>
                 u_id u = ou_id r /\ u_email u = ou_email r
                 /\ exists pre rest,
                     u_email u = String.append pre (String "@"%char rest)
                     /\ ~ hasChar "@"%char pre
                     /\ u_username u = firstChars 50 pre)
              rows us
      /\ NoDup (map u_username us)).
Proof.
  split.
  - rewrite <- updateUsernames_is_Some. unfold up_users, uniqueUsernames.
    destruct (updateUsernames rows) as [us|] eqn:Hup.
    + rewrite (updateUsernames_names rows us Hup), NoDup_map_Some.
      case_bool_decide as Hnd; split; eauto.
      * intros [? ?]. discriminate.
      * intros [_ Hnd']. contradiction.
    + split; [intros [? ?]; discriminate|intros [[? ?] _]; discriminate].
  - intros us. unfold up_users.
    destruct (updateUsernames rows) as [us'|] eqn:Hup; [|discriminate].
    unfold uniqueUsernames. case_bool_decide as Hnd; [|discriminate].
    intros [= <-]. split; [|exact Hnd].
    eapply Forall2_impl; [apply updateUsernames_Forall2, Hup|].
    cbn. intros r u (Hid & Hemail & Hname).
    apply usernameOf_Some in Hname as (pre & rest & Hrest & Hno & Hname).
    repeat split; try assumption. exists pre, rest. rewrite Hemail. auto.
Qed.

(** X18: the down migration after the up migration gives the users back as
    they were, and the personal expenses without their category ids: the pair
    is a round trip only for tables in which no expense had a category. *)
Theorem down_after_up s s' :
  up s = Some s' ->
  down s' = (s.1, map (fun r => mkOldPE (ope_id r) None) s.2)
  /\ (down s' = s <-> Forall (fun r => ope_category_id r = None) s.2).
Proof.
  destruct s as [us pes]. unfold up, up_users, down. cbn [fst snd].
  destruct (updateUsernames us) as [us'|] eqn:Hup; [|discriminate].
  destruct (uniqueUsernames us'); [|discriminate].
  intros [= <-]. cbn [fst snd].
  rewrite (updateUsernames_down us us' Hup).
  unfold down_personal_expenses, up_personal_expenses. rewrite map_map.
  cbn [pe_id]. split; [reflexivity|].
  split.
  - intros [= Heq]. induction pes as [|[id cat] pes IH]; [constructor|].
    cbn in Heq. injection Heq as <- Heq. constructor; [reflexivity|].
    apply IH, Heq.
  - intros Hall. f_equal. induction Hall as [|[id cat] pes Hcat _ IH]; [reflexivity|].
    cbn in *. subst cat. rewrite IH. reflexivity.
Qed.

Lemma down_after_up_witness :
  down ([mkUser 1 "ann@x.io" "ann"], [mkPE 5 None]) =
    ([mkOldUser 1 "ann@x.io"], [mkOldPE 5 None])
  /\ (down ([mkUser 1 "ann@x.io" "ann"], [mkPE 5 None]) =
        ([mkOldUser 1 "ann@x.io"], [mkOldPE 5 (Some 9%N)])
      <-> Forall (fun r => ope_category_id r = None) [mkOldPE 5 (Some 9%N)]).
Proof.
  apply (down_after_up ([mkOldUser 1 "ann@x.io"], [mkOldPE 5 (Some 9%N)])
                       ([mkUser 1 "ann@x.io" "ann"], [mkPE 5 None])).
  vm_compute. reflexivity.
Defined.

(** Two users whose emails agree before the at sign: the migration fails on
    the [UNIQUE] constraint. *)
Example up_users_collision :
  up_users [mkOldUser 1 "ann@x.io"; mkOldUser 2 "ann@y.io"] = None.
Proof. vm_compute. reflexivity. Qed.
